(** * RegineMe_AI_bot: cache integration examples and Redis settings

    A shallow embedding of [config/settings.py] (class [RedisConfig]) and of
    [examples/cache_integration_examples.py] (the hand-written read paths
    around the cache client), with the properties of the cache contract that
    these two files decide.

    Python values are a small inductive type, exceptions are values of an
    [outcome], and every coroutine is a state transformer over a world that
    carries the state of the collaborators together with a ghost log of the
    calls made, so that "how often" and "in which order" can be stated. *)

From Stdlib Require Import ZArith Ascii String DecimalString DecimalPos.
From stdpp Require Import base gmap strings list.

Open Scope Z_scope.

#[local] Set Warnings "-register-all".

(* ===================================================================== *)
(** ** Python values *)
(* ===================================================================== *)

(** The fragment of Python's object universe the two files handle: [None],
    booleans, unbounded integers, strings, lists and insertion-ordered
    dictionaries.  Floats, tuples and user classes do not occur in the code
    paths modelled here. *)
Inductive pyval : Type :=
| PNone
| PBool (b : bool)
| PInt (z : Z)
| PStr (s : string)
| PList (l : list pyval)
| PDict (d : list (pyval * pyval)).

(** [bool(v)]: the truth test behind [if v:]. *)
Definition truthy (v : pyval) : bool :=
  match v with
  | PNone => false
  | PBool b => b
  | PInt z => negb (z =? 0)
  | PStr s => negb (String.eqb s "")
  | PList l => match l with [] => false | _ => true end
  | PDict d => match d with [] => false | _ => true end
  end.

(** [v is None] *)
Definition is_None (v : pyval) : bool :=
  match v with PNone => true | _ => false end.

(** [type(v).__name__], used in error messages only. *)
Definition type_name (v : pyval) : string :=
  match v with
  | PNone => "NoneType" | PBool _ => "bool" | PInt _ => "int"
  | PStr _ => "str" | PList _ => "list" | PDict _ => "dict"
  end.

(** Decimal rendering of an integer, as [str(n)] and [f"{n}"] give it. *)
Definition str_of_int (z : Z) : string := NilZero.string_of_int (Z.to_int z).

(* ===================================================================== *)
(** ** Exceptions and outcomes *)
(* ===================================================================== *)

(** An exception object: its class name, the text [str(e)] gives, and
    whether the class derives from [Exception] (what [except Exception]
    catches) or only from [BaseException] ([KeyboardInterrupt],
    [SystemExit], [asyncio.CancelledError]). *)
Record exn : Type := Exn {
  exn_class : string;
  exn_text : string;
  exn_is_Exception : bool
}.

Definition NameError (name : string) : exn :=
  Exn "NameError" ("name '" +:+ name +:+ "' is not defined") true.
Definition TypeError (text : string) : exn := Exn "TypeError" text true.
Definition ValueError (text : string) : exn := Exn "ValueError" text true.
Definition AttributeError (ty attr : string) : exn :=
  Exn "AttributeError"
      ("'" +:+ ty +:+ "' object has no attribute '" +:+ attr +:+ "'") true.

Inductive outcome (A : Type) : Type :=
| Ok (a : A)
| Raise (e : exn).
Arguments Ok {A} a.
Arguments Raise {A} e.

Definition is_Ok {A} (r : outcome A) : bool :=
  match r with Ok _ => true | Raise _ => false end.

Definition outcome_map {A B} (f : A → B) (r : outcome A) : outcome B :=
  match r with Ok a => Ok (f a) | Raise e => Raise e end.

(* ===================================================================== *)
(** ** The state-and-exception monad *)
(* ===================================================================== *)

(** A computation over a state [St] that returns normally with a value or
    raises; the state survives a raise, as side effects do in Python. *)
Definition M (St A : Type) : Type := St → outcome A * St.

Definition ret {St A} (a : A) : M St A := λ s, (Ok a, s).

Definition raise {St A} (e : exn) : M St A := λ s, (Raise e, s).

Definition bind {St A B} (c : M St A) (k : A → M St B) : M St B :=
  λ s, match c s with
       | (Ok a, s') => k a s'
       | (Raise e, s') => (Raise e, s')
       end.

(** [try: body / except Exception as e: handler e].  Only exceptions whose
    class derives from [Exception] are caught. *)
Definition try_except {St A} (body : M St A) (handler : exn → M St A)
  : M St A :=
  λ s, match body s with
       | (Ok a, s') => (Ok a, s')
       | (Raise e, s') =>
           if exn_is_Exception e then handler e s' else (Raise e, s')
       end.

(** Lifting of a pure step that may raise. *)
Definition of_outcome {St A} (r : outcome A) : M St A := λ s, (r, s).

Notation "x <- c ;; k" := (bind c (λ x, k))
  (at level 100, c at next level, right associativity).
Notation "c ;;; k" := (bind c (λ _, k))
  (at level 100, right associativity).

(* ===================================================================== *)
(** ** config/settings.py *)
(* ===================================================================== *)

Module settings.

(** The process environment as [os.getenv] sees it once [load_dotenv()] has
    run at the top of the module. *)
Abbreviation environ := (gmap string string).

(** The class body runs once, when the module is imported; the state of its
    evaluation is the ghost log of the variable names handed to
    [os.getenv]. *)
Definition reads := list string.

(** [os.getenv(name, default)] *)
Definition os_getenv (env : environ) (name dflt : string)
  : M reads string :=
  λ log, (Ok (default dflt (env !! name)), log ++ [name]).

(** *** [int(s)] on a string

    What CPython 3.11 does for [int(s)] when [s] is a [str] of ASCII
    characters: blanks are skipped on both sides, a sign may come first,
    single underscores may separate the digits, and a literal of more than
    4300 digits is refused (the interpreter's default limit on conversions).
    The error text of a malformed literal shows [repr(s)], cut after 200
    characters.  A value of the environment is modelled character by
    character within ASCII; what [int] does with other characters depends
    on the locale's decoding and on the interpreter's Unicode tables and is
    not modelled: [ascii_text] is the domain of [py_int]. *)

Definition ascii_text (s : string) : Prop :=
  forallb (λ c, Nat.ltb (nat_of_ascii c) 128) (list_ascii_of_string s) = true.

(** The blanks [int()] skips in ASCII text: the space and the characters
    9 to 13. *)
Definition is_space (c : ascii) : bool :=
  let n := nat_of_ascii c in
  (Nat.eqb n 32 || (Nat.leb 9 n && Nat.leb n 13))%bool.

Definition digit_of (c : ascii) : option Z :=
  let n := nat_of_ascii c in
  if (Nat.leb 48 n && Nat.leb n 57)%bool then Some (Z.of_nat n - 48)
  else None.

Fixpoint strip_left (s : list ascii) : list ascii :=
  match s with
  | [] => []
  | c :: r => if is_space c then strip_left r else s
  end.

(** The digits and underscores at the head of a text: the value of the
    digits, their number, and the text that follows them.  [None] for a
    doubled underscore and for an underscore that no digit follows. *)
Fixpoint scan_digits (acc digits : Z) (after_underscore : bool)
    (s : list ascii) : option (Z * Z * list ascii) :=
  match s with
  | [] => if after_underscore then None else Some (acc, digits, [])
  | c :: r =>
      match digit_of c with
      | Some d => scan_digits (10 * acc + d) (digits + 1) false r
      | None =>
          if Ascii.eqb c "_"
          then if after_underscore then None
               else scan_digits acc digits true r
          else if after_underscore then None
               else Some (acc, digits, s)
      end
  end.

Inductive int_parse : Type :=
| IntValue (z : Z)
| IntInvalid
| IntTooLong (digits : Z).

(** [sys.get_int_max_str_digits()], at its default. *)
Definition max_str_digits : Z := 4300.

(** The literal is read in the order of the interpreter: leading blanks,
    sign, digits and underscores, the limit on the number of digits, and
    only then what follows the digits. *)
Definition int_literal (s : list ascii) : int_parse :=
  let s1 := strip_left s in
  let '(negative, s2) :=
    match s1 with
    | c :: r =>
        if Ascii.eqb c "-" then (true, r)
        else if Ascii.eqb c "+" then (false, r)
        else (false, s1)
    | [] => (false, s1)
    end in
  match s2 with
  | c :: _ =>
      if Ascii.eqb c "_" then IntInvalid
      else
        match scan_digits 0 0 false s2 with
        | None => IntInvalid
        | Some (value, digits, rest) =>
            if max_str_digits <? digits then IntTooLong digits
            else if digits =? 0 then IntInvalid
            else
              match strip_left rest with
              | [] => IntValue (if negative then - value else value)
              | _ :: _ => IntInvalid
              end
        end
  | [] => IntInvalid
  end.

(** [repr(s)] for ASCII text: single quotes unless the text has a single
    quote and no double quote; backslash, the quote in use, tab, newline
    and carriage return are escaped, the other control characters are
    written [\xNN]. *)
Definition double_quote : ascii := "034"%char.

Definition hex_digit (n : nat) : ascii :=
  ascii_of_nat (if Nat.ltb n 10 then 48 + n else 87 + n).

Definition repr_char (quote c : ascii) : list ascii :=
  let n := nat_of_ascii c in
  if (Ascii.eqb c quote || Ascii.eqb c "\")%bool then ["\"%char; c]
  else if Nat.eqb n 9 then ["\"%char; "t"%char]
  else if Nat.eqb n 10 then ["\"%char; "n"%char]
  else if Nat.eqb n 13 then ["\"%char; "r"%char]
  else if (Nat.ltb n 32 || Nat.ltb 126 n)%bool
       then ["\"%char; "x"%char; hex_digit (n / 16); hex_digit (n mod 16)]
       else [c].

Definition py_repr (s : string) : string :=
  let l := list_ascii_of_string s in
  let quote :=
    if (existsb (Ascii.eqb "'") l && negb (existsb (Ascii.eqb double_quote) l))%bool
    then double_quote else "'"%char in
  string_of_list_ascii (quote :: concat (map (repr_char quote) l) ++ [quote]).

(** [int(s)]: the integer the literal denotes, [ValueError] otherwise;
    the format of the first error text is ["%.200R"]. *)
Definition py_int (s : string) : outcome Z :=
  match int_literal (list_ascii_of_string s) with
  | IntValue z => Ok z
  | IntInvalid =>
      Raise (ValueError
               ("invalid literal for int() with base 10: "
                +:+ string_of_list_ascii
                      (take 200 (list_ascii_of_string (py_repr s)))))
  | IntTooLong digits =>
      Raise (ValueError
               ("Exceeds the limit (4300 digits) for integer string "
                +:+ "conversion: value has " +:+ str_of_int digits
                +:+ " digits; use sys.set_int_max_str_digits() to "
                +:+ "increase the limit"))
  end.

(** *** class RedisConfig *)

Record RedisConfig : Type := {
  REDIS_HOST : string;
  REDIS_PORT : Z;
  REDIS_DB : Z;
  REDIS_PASSWORD : string;
  REDIS_URL : string;
  CACHE_TTL : Z;
  CACHE_PREFIX : string
}.

(** The class body, attribute by attribute in source order.  A failing
    [int(...)] aborts the class statement (and the import). *)
Definition RedisConfig_body (env : environ) : M reads RedisConfig :=
  host <- os_getenv env "REDIS_HOST" "localhost" ;;
  port_s <- os_getenv env "REDIS_PORT" "6379" ;;
  port <- of_outcome (py_int port_s) ;;
  db_s <- os_getenv env "REDIS_DB" "0" ;;
  db <- of_outcome (py_int db_s) ;;
  password <- os_getenv env "REDIS_PASSWORD" "" ;;
  url <- os_getenv env "REDIS_URL" "" ;;
  ttl_s <- os_getenv env "CACHE_TTL" "3600" ;;
  ttl <- of_outcome (py_int ttl_s) ;;
  prefix <- os_getenv env "CACHE_PREFIX" "bot_cache:" ;;
  ret {| REDIS_HOST := host; REDIS_PORT := port; REDIS_DB := db;
         REDIS_PASSWORD := password; REDIS_URL := url;
         CACHE_TTL := ttl; CACHE_PREFIX := prefix |}.

(** Importing the module: the class body evaluated from an empty log. *)
Definition import_settings (env : environ) : outcome RedisConfig * reads :=
  RedisConfig_body env [].

(** [RedisConfig.get_redis_url()]: works on the class attributes only. *)
Definition get_redis_url (cls : RedisConfig) : string :=
  if truthy (PStr (REDIS_URL cls)) then REDIS_URL cls
  else if truthy (PStr (REDIS_PASSWORD cls)) then
    "redis://:" +:+ REDIS_PASSWORD cls +:+ "@" +:+ REDIS_HOST cls +:+ ":"
      +:+ str_of_int (REDIS_PORT cls) +:+ "/" +:+ str_of_int (REDIS_DB cls)
  else
    "redis://" +:+ REDIS_HOST cls +:+ ":" +:+ str_of_int (REDIS_PORT cls)
      +:+ "/" +:+ str_of_int (REDIS_DB cls).

(** *** The other settings classes and the module as a whole *)

(** [os.getenv(name)] without a default: [None] when the variable is
    unset. *)
Definition os_getenv_opt (env : environ) (name : string)
  : M reads (option string) :=
  λ log, (Ok (env !! name), log ++ [name]).

Record GetTokenBot : Type := { BOT_TOKEN : option string }.
Record GetTechSupport : Type := { TECH_SUPPORT : option string }.
Record GetBotName : Type := {
  BOT_NAME : option string;
  BOT_USERNAME : option string
}.
Record YooKassaInfo : Type := {
  PAY_TOKEN : option string;
  SHOP_ID : option string
}.

(** The classes [config/settings.py] leaves behind once imported. *)
Record settings_py : Type := {
  token_bot : GetTokenBot;
  tech_support : GetTechSupport;
  bot_name : GetBotName;
  yookassa : YooKassaInfo;
  redis : RedisConfig
}.

(** The module body, class by class in source order. *)
Definition settings_body (env : environ) : M reads settings_py :=
  bot_token <- os_getenv_opt env "BOT_TOKEN" ;;
  support <- os_getenv_opt env "TECH_SUPPORT" ;;
  name <- os_getenv_opt env "BOT_NAME" ;;
  username <- os_getenv_opt env "BOT_USERNAME" ;;
  pay_token <- os_getenv_opt env "PAYMENT_TOKEN" ;;
  shop_id <- os_getenv_opt env "SHOP_ID" ;;
  redis_config <- RedisConfig_body env ;;
  ret {| token_bot := {| BOT_TOKEN := bot_token |};
         tech_support := {| TECH_SUPPORT := support |};
         bot_name := {| BOT_NAME := name; BOT_USERNAME := username |};
         yookassa := {| PAY_TOKEN := pay_token; SHOP_ID := shop_id |};
         redis := redis_config |}.

Definition import_module (env : environ) : outcome settings_py * reads :=
  settings_body env [].

(** The variables the module asks the environment for. *)
Definition module_reads : list string :=
  [ "BOT_TOKEN"; "TECH_SUPPORT"; "BOT_NAME"; "BOT_USERNAME";
    "PAYMENT_TOKEN"; "SHOP_ID"; "REDIS_HOST"; "REDIS_PORT"; "REDIS_DB";
    "REDIS_PASSWORD"; "REDIS_URL"; "CACHE_TTL"; "CACHE_PREFIX" ].

End settings.


(* ===================================================================== *)
(** ** Dictionaries, iteration and arithmetic on Python values *)
(* ===================================================================== *)

(** What a dictionary compares keys by: hashable scalars up to Python's
    [==], under which [True == 1] and [False == 0]. *)
Inductive hkey : Type :=
| HNone
| HInt (z : Z)
| HStr (s : string).

#[global] Instance hkey_eq_dec : EqDecision hkey.
Proof. solve_decision. Defined.

(** [hash(v)] succeeds on scalars; lists and dictionaries are unhashable. *)
Definition hash_key (v : pyval) : option hkey :=
  match v with
  | PNone => Some HNone
  | PBool b => Some (HInt (if b then 1 else 0))
  | PInt z => Some (HInt z)
  | PStr s => Some (HStr s)
  | PList _ | PDict _ => None
  end.

(** A [dict] is its items in insertion order; keys are pairwise different
    under [hash_key]. *)
Abbreviation pydict := (list (pyval * pyval)).

Fixpoint dict_lookup (h : hkey) (d : pydict) : option pyval :=
  match d with
  | [] => None
  | (k, v) :: rest =>
      if bool_decide (hash_key k = Some h) then Some v
      else dict_lookup h rest
  end.

(** [d[key] = v]: overwrite in place when the key is there (the stored key
    object and its position stay), append a new item otherwise. *)
Fixpoint dict_store (h : hkey) (key v : pyval) (d : pydict) : pydict :=
  match d with
  | [] => [(key, v)]
  | (k, v') :: rest =>
      if bool_decide (hash_key k = Some h) then (k, v) :: rest
      else (k, v') :: dict_store h key v rest
  end.

Definition unhashable (v : pyval) : exn :=
  TypeError ("unhashable type: '" +:+ type_name v +:+ "'").

(** [obj.get(key, dflt)]: only dictionaries have the method. *)
Definition py_get (obj key dflt : pyval) : outcome pyval :=
  match obj with
  | PDict d =>
      match hash_key key with
      | Some h => Ok (default dflt (dict_lookup h d))
      | None => Raise (unhashable key)
      end
  | _ => Raise (AttributeError (type_name obj) "get")
  end.

(** The items a [for] loop visits: list elements, dictionary keys, the
    characters of a string; anything else is not iterable. *)
Definition py_iter (v : pyval) : outcome (list pyval) :=
  match v with
  | PList l => Ok l
  | PDict d => Ok (d.*1)
  | PStr s => Ok ((λ c, PStr (String c EmptyString)) <$> list_ascii_of_string s)
  | _ => Raise (TypeError ("'" +:+ type_name v +:+ "' object is not iterable"))
  end.

(** [v + 1] *)
Definition py_add_one (v : pyval) : outcome pyval :=
  match v with
  | PInt z => Ok (PInt (z + 1))
  | PBool b => Ok (PInt ((if b then 1 else 0) + 1))
  | _ => Raise (TypeError ("unsupported operand for +: '" +:+ type_name v
                           +:+ "' and 'int'"))
  end.

(** [a or b] *)
Definition py_or (a b : pyval) : pyval := if truthy a then a else b.

(* ===================================================================== *)
(** ** examples/cache_integration_examples.py *)
(* ===================================================================== *)

(** *** Collaborators

    The module imports [get_cache] from [database.redis_cache] and calls
    into a database layer ([fetch_user_data_from_db], ...) that the
    examples leave to the application.  Neither is part of the two files,
    so both are parameters: arbitrary transformers of an external state
    [S] that may return or raise.  [Cache] is the type of the client object
    [get_cache()] hands out. *)
Class Collaborators (S Cache : Type) : Type := {
  get_cache : S → outcome Cache * S;
  cache_get : Cache → string → S → outcome pyval * S;
  cache_set : Cache → string → pyval → Z → S → outcome pyval * S;
  fetch_user_data_from_db : Z → S → outcome pyval * S;
  fetch_data_from_db : string → S → outcome pyval * S;
  get_counter_from_db : Z → string → S → outcome pyval * S;
  update_counter_in_db : Z → string → pyval → S → outcome pyval * S;
  fetch_users_by_group : string → S → outcome pyval * S
}.

(** One entry of the ghost log: which collaborator was awaited, with which
    arguments, and how the call ended. *)
Inductive event : Type :=
| EvGetCache (r : outcome ())
| EvGet (key : string) (r : outcome pyval)
| EvSet (key : string) (value : pyval) (ttl : Z) (r : outcome pyval)
| EvCall (func : string) (args : list pyval) (r : outcome pyval)
| EvPrint (text : string).

(** The sender context of a Telegram message: [message.from_user.id]. *)
Record user : Type := { id : Z }.
Record message : Type := { from_user : user }.

(** Names the module binds at top level: its two import statements and its
    [def]s.  The database layer is supplied by the application (see
    [Collaborators]); a library module such as [asyncio] is bound only by
    an import statement of the file itself. *)
Definition module_globals : list string :=
  [ "cache_result"; "cache_user_data"; "cache_invalidate"; "get_cache";
    "get_user_profile"; "get_admin_users"; "get_bot_statistics";
    "get_group_settings"; "update_user_profile";
    "get_user_subscription_status"; "calculate_user_analytics";
    "get_user_data_with_conditional_cache"; "get_priority_data";
    "cache_user_session_data"; "safe_cache_get"; "cache_with_metadata";
    "increment_user_counter"; "get_grouped_user_data";
    "get_auto_refresh_data"; "refresh_cache_background";
    "example_handler" ].

Section examples.

Context {S Cache : Type} `{!Collaborators S Cache}.

(** An awaitable passed in by the caller ([fallback_func], [fetch_func]). *)
Definition callable : Type := S → outcome pyval * S.

(** A coroutine object handed to the event loop: the only coroutine the
    module ever spawns is [refresh_cache_background(key, fetch_func, ttl)]. *)
Record task : Type := Task {
  task_key : string;
  task_fetch : callable;
  task_ttl : Z
}.

(** The world a coroutine runs in: the collaborators' state, the ghost log
    of this logical call, and the tasks scheduled but not yet run. *)
Record world : Type := World {
  ext : S;
  trace : list event;
  tasks : list task
}.

(** [await f(...)]: run the collaborator on the external state and log the
    call with its outcome. *)
Definition await {A} (f : S → outcome A * S) (ev : outcome A → event)
  : M world A :=
  λ w, let '(r, s') := f (ext w) in
       (r, World s' (trace w ++ [ev r]) (tasks w)).

Definition await_get_cache : M world Cache :=
  await get_cache (λ r, EvGetCache (outcome_map (λ _, ()) r)).

Definition await_get (cache : Cache) (key : string) : M world pyval :=
  await (cache_get cache key) (EvGet key).

Definition await_set (cache : Cache) (key : string) (value : pyval) (ttl : Z)
  : M world pyval :=
  await (cache_set cache key value ttl) (EvSet key value ttl).

Definition await_call (func : string) (args : list pyval) (f : callable)
  : M world pyval :=
  await f (EvCall func args).

Definition print (text : string) : M world () :=
  λ w, (Ok (), World (ext w) (trace w ++ [EvPrint text]) (tasks w)).

(** Evaluating a global name of the module. *)
Definition load_global (name : string) : M world () :=
  if bool_decide (name ∈ module_globals) then ret ()
  else raise (NameError name).

(** [asyncio.create_task(coro)]: the coroutine is queued on the loop and
    starts only after the caller next suspends. *)
Definition create_task (coro : task) : M world () :=
  λ w, (Ok (), World (ext w) (trace w) (tasks w ++ [coro])).

(** **** Example 8: conditional caching *)
Definition get_user_data_with_conditional_cache (msg : message)
  : M world pyval :=
  let user_id := id (from_user msg) in
  cache <- await_get_cache ;;
  cached_data <- await_get cache ("user_data:" +:+ str_of_int user_id) ;;
  if truthy cached_data then ret cached_data
  else
    user_data <- await_call "fetch_user_data_from_db" [PInt user_id]
                   (fetch_user_data_from_db user_id) ;;
    is_active <- of_outcome (py_get user_data (PStr "is_active") PNone) ;;
    (if truthy is_active
     then await_set cache ("user_data:" +:+ str_of_int user_id)
            user_data 1800 ;;; ret ()
     else ret ()) ;;;
    ret user_data.

(** **** Example 9: TTL by priority *)

(** [ttl_map.get(priority, 1800)] *)
Definition ttl_map_get (priority : string) : Z :=
  if String.eqb priority "high" then 300
  else if String.eqb priority "normal" then 1800
  else if String.eqb priority "low" then 7200
  else 1800.

Definition get_priority_data (data_type priority : string) : M world pyval :=
  cache <- await_get_cache ;;
  let ttl := ttl_map_get priority in
  let cache_key := "priority_data:" +:+ data_type +:+ ":" +:+ priority in
  cached_data <- await_get cache cache_key ;;
  if truthy cached_data then ret cached_data
  else
    data <- await_call "fetch_data_from_db" [PStr data_type]
              (fetch_data_from_db data_type) ;;
    await_set cache cache_key data ttl ;;;
    ret data.

(** **** Example 10: session data *)
Definition cache_user_session_data (user_id : Z) (session_data : pyval)
  : M world pyval :=
  cache <- await_get_cache ;;
  let session_key := "user_session:" +:+ str_of_int user_id in
  await_set cache session_key session_data 300 ;;;
  let user_key := "user_data:" +:+ str_of_int user_id in
  user_info <- of_outcome (py_get session_data (PStr "user_info") PNone) ;;
  await_set cache user_key user_info 3600 ;;;
  ret (PBool true).

(** **** Example 11: cache access with a fallback *)
Definition safe_cache_get (key : string) (fallback_func : callable) (ttl : Z)
  : M world pyval :=
  try_except
    (cache <- await_get_cache ;;
     cached_data <- await_get cache key ;;
     if negb (is_None cached_data) then ret cached_data
     else
       data <- await_call "fallback_func" [] fallback_func ;;
       await_set cache key data ttl ;;;
       ret data)
    (λ e,
       print ("Ошибка кеширования: " +:+ exn_text e) ;;;
       await_call "fallback_func" [] fallback_func).

(** **** Example 13: incremental counters *)
Definition increment_user_counter (user_id : Z) (counter_type : string)
  : M world pyval :=
  cache <- await_get_cache ;;
  let cache_key :=
    "user_counter:" +:+ str_of_int user_id +:+ ":" +:+ counter_type in
  current_value <- await_get cache cache_key ;;
  current_value <-
    (if is_None current_value
     then await_call "get_counter_from_db" [PInt user_id; PStr counter_type]
            (get_counter_from_db user_id counter_type)
     else ret current_value) ;;
  new_value <- of_outcome (py_add_one current_value) ;;
  await_set cache cache_key new_value 7200 ;;;
  await_call "update_counter_in_db"
    [PInt user_id; PStr counter_type; new_value]
    (update_counter_in_db user_id counter_type new_value) ;;;
  ret new_value.

(** **** Example 14: grouping *)

(** One turn of the loop body:
    [status = user.get("status", "unknown")], then create the group when
    [status not in grouped_data], then [grouped_data[status].append(user)]. *)
Definition group_step (grouped_data : pydict) (user : pyval)
  : outcome pydict :=
  match py_get user (PStr "status") (PStr "unknown") with
  | Raise e => Raise e
  | Ok status =>
      match hash_key status with
      | None => Raise (unhashable status)
      | Some h =>
          let grouped_data :=
            match dict_lookup h grouped_data with
            | None => dict_store h status (PList []) grouped_data
            | Some _ => grouped_data
            end in
          match dict_lookup h grouped_data with
          | Some (PList members) =>
              Ok (dict_store h status (PList (members ++ [user]))
                    grouped_data)
          | Some other => Raise (AttributeError (type_name other) "append")
          | None => Raise (Exn "KeyError" (type_name status) true)
          end
      end
  end.

(** [for user in users_data: ...] from a given [grouped_data]. *)
Fixpoint group_loop (grouped_data : pydict) (users : list pyval)
  : outcome pydict :=
  match users with
  | [] => Ok grouped_data
  | user :: rest =>
      match group_step grouped_data user with
      | Ok grouped_data' => group_loop grouped_data' rest
      | Raise e => Raise e
      end
  end.

Definition group_users (users_data : pyval) : outcome pydict :=
  match py_iter users_data with
  | Ok users => group_loop [] users
  | Raise e => Raise e
  end.

Definition get_grouped_user_data (group_id : string) : M world pyval :=
  cache <- await_get_cache ;;
  let cache_key := "grouped_users:" +:+ group_id in
  cached_data <- await_get cache cache_key ;;
  if truthy cached_data then ret cached_data
  else
    users_data <- await_call "fetch_users_by_group" [PStr group_id]
                    (fetch_users_by_group group_id) ;;
    grouped_data <- of_outcome (group_users users_data) ;;
    await_set cache cache_key (PDict grouped_data) 1800 ;;;
    ret (PDict grouped_data).

(** **** Example 15: refresh in the background *)
Definition refresh_cache_background (key : string) (fetch_func : callable)
    (ttl : Z) : M world () :=
  try_except
    (cache <- await_get_cache ;;
     new_data <- await_call "fetch_func" [] fetch_func ;;
     await_set cache key new_data ttl ;;;
     print ("Кеш " +:+ key +:+ " обновлен в фоне"))
    (λ e,
       print ("Ошибка при фоновом обновлении кеша " +:+ key +:+ ": "
              +:+ exn_text e)).

Definition get_auto_refresh_data (key : string) (fetch_func : callable)
    (ttl : Z) : M world pyval :=
  cache <- await_get_cache ;;
  cached_data <- await_get cache key ;;
  if truthy cached_data then
    load_global "asyncio" ;;;
    create_task (Task key fetch_func ttl) ;;;
    ret cached_data
  else
    data <- await_call "fetch_func" [] fetch_func ;;
    await_set cache key data ttl ;;;
    ret data.

(** **** Example 12: an envelope with metadata *)
Definition cache_with_metadata (key : string) (data metadata : pyval)
  : M world pyval :=
  cache <- await_get_cache ;;
  let cache_data :=
    PDict [(PStr "data", data);
           (PStr "metadata", py_or metadata (PDict []));
           (PStr "cached_at", PStr "2024-01-01T00:00:00Z");
           (PStr "version", PStr "1.0")] in
  await_set cache key cache_data 3600 ;;;
  ret (PBool true).

(** A logical call started from external state [s]: fresh log, no task
    pending. *)
Definition run {A} (c : M world A) (s : S) : outcome A * world :=
  c (World s [] []).

End examples.

Arguments world : clear implicits.
Arguments task : clear implicits.
Arguments callable : clear implicits.

(** **** The handler at the end of the file

    [example_handler] calls three of the decorated getters.  Their
    decorators come from [database.cache_decorators], which is not among
    the sources, so the decorated coroutines are parameters here; so is
    [str], which the f-string applies to each of the three values. *)
Section handler.

Context {S : Type}.
Variable get_user_profile : message → callable S.
Variable get_bot_statistics : callable S.
Variable get_user_subscription_status : Z → callable S.
Variable py_str : pyval → string.

(** The message as the log shows it. *)
Definition message_repr (msg : message) : pyval :=
  PDict [(PStr "from_user", PDict [(PStr "id", PInt (id (from_user msg)))])].

Definition handler_failure : string :=
  "Произошла ошибка при получении данных".

(** The f-string of the success path. *)
Definition handler_response (profile stats subscription : pyval) : string :=
  "
👤 Профиль: " +:+ py_str profile +:+ "
📊 Статистика: " +:+ py_str stats +:+ "
💎 Подписка: " +:+ py_str subscription +:+ "
        ".

Definition example_handler (msg : message) : M (world S) pyval :=
  let user_id := id (from_user msg) in
  try_except
    (profile <- await_call "get_user_profile" [message_repr msg]
                  (get_user_profile msg) ;;
     stats <- await_call "get_bot_statistics" [] get_bot_statistics ;;
     subscription <- await_call "get_user_subscription_status" [PInt user_id]
                       (get_user_subscription_status user_id) ;;
     let response := handler_response profile stats subscription in
     ret (PStr response))
    (λ e,
       print ("Ошибка в хендлере: " +:+ exn_text e) ;;;
       ret (PStr handler_failure)).

End handler.

(* ===================================================================== *)
(** ** A reference cache client and database *)
(* ===================================================================== *)

Module store_model.

(** Modelled from the spec: the Cache Client behind [get_cache()]
    ([database.redis_cache], not among the sources) together with a toy
    database for the [..._from_db] helpers.  [get] gives the stored value or
    [None] when the key is absent, [set] overwrites the entry under the key
    and records its TTL, every key is stored under the global prefix, and an
    unreachable store answers each operation with a connection error that
    is distinct from a miss.  Expiry is not modelled: no time passes inside
    one logical call. *)
Record state : Type := State {
  prefix : string;
  entries : gmap string (pyval * Z);
  reachable_for : option nat;
  db_users : gmap Z pyval;
  db_data : gmap string pyval;
  db_counters : gmap (Z * string) pyval;
  db_groups : gmap string pyval
}.

Definition StoreUnavailable : exn :=
  Exn "ConnectionError" "Error connecting to the backing store" true.

(** Modelled from the spec: one round trip to the backing store.
    [reachable_for = Some n] lets [n] more operations through before the
    store becomes unreachable, [None] never fails. *)
Definition round_trip : M state () :=
  λ s, match reachable_for s with
       | None => (Ok (), s)
       | Some O => (Raise StoreUnavailable, s)
       | Some (Datatypes.S n) =>
           (Ok (), State (prefix s) (entries s) (Some n) (db_users s)
                     (db_data s) (db_counters s) (db_groups s))
       end.

Definition with_entry_ttl (key : string) (value : pyval) (ttl : Z)
    (s : state) : state :=
  State (prefix s) (<[prefix s +:+ key := (value, ttl)]> (entries s))
    (reachable_for s) (db_users s) (db_data s) (db_counters s) (db_groups s).

(** Modelled from the spec: [get(key)] gives the value stored under the
    prefixed key, [None] for a miss, and fails only when the store cannot
    be reached. *)
Definition client_get (key : string) : M state pyval :=
  round_trip ;;;
  (λ s, (Ok (default PNone (fst <$> entries s !! (prefix s +:+ key))), s)).

(** Modelled from the spec: [set(key, value, ttl) -> success | failure]
    overwrites the entry under the prefixed key as a whole and reports
    success.  A TTL is a positive duration, and the round trip of the
    contract is given for [ttl > 0] only: with another TTL this client
    writes nothing and reports a failure, so that no entry exists that the
    contract does not grant. *)
Definition client_set (key : string) (value : pyval) (ttl : Z)
  : M state pyval :=
  round_trip ;;;
  (λ s, if 0 <? ttl
        then (Ok (PBool true), with_entry_ttl key value ttl s)
        else (Ok (PBool false), s)).

Definition db_update_counter (user_id : Z) (counter_type : string)
    (value : pyval) : M state pyval :=
  λ s, (Ok PNone,
        State (prefix s) (entries s) (reachable_for s) (db_users s)
          (db_data s) (<[(user_id, counter_type) := value]> (db_counters s))
          (db_groups s)).

(** Modelled from the spec: the collaborators of the examples, with
    [get_cache] costing one round trip and the database helpers reading
    and writing the toy tables. *)
#[global] Instance reference : Collaborators state () := {|
  get_cache := round_trip;
  cache_get := λ _, client_get;
  cache_set := λ _, client_set;
  fetch_user_data_from_db := λ uid s, (Ok (default PNone (db_users s !! uid)), s);
  fetch_data_from_db := λ ty s, (Ok (default PNone (db_data s !! ty)), s);
  get_counter_from_db :=
    λ uid ty s, (Ok (default (PInt 0) (db_counters s !! (uid, ty))), s);
  update_counter_in_db := db_update_counter;
  fetch_users_by_group :=
    λ g s, (Ok (default (PList []) (db_groups s !! g)), s)
|}.

(** Modelled from the spec: [set] answers [success | failure].  The same
    collaborators with a client whose writes do not take effect and are
    reported as failures, the store being reachable all the same. *)
Definition set_refused : Collaborators state () := {|
  get_cache := round_trip;
  cache_get := λ _, client_get;
  cache_set := λ _ _ _ _, round_trip ;;; ret (PBool false);
  fetch_user_data_from_db := λ uid s, (Ok (default PNone (db_users s !! uid)), s);
  fetch_data_from_db := λ ty s, (Ok (default PNone (db_data s !! ty)), s);
  get_counter_from_db :=
    λ uid ty s, (Ok (default (PInt 0) (db_counters s !! (uid, ty))), s);
  update_counter_in_db := db_update_counter;
  fetch_users_by_group :=
    λ g s, (Ok (default (PList []) (db_groups s !! g)), s)
|}.


(** A reachable store with nothing cached and an empty database. *)
Definition empty_state : state :=
  State "bot_cache:" ∅ None ∅ ∅ ∅ ∅.

Definition with_entry (key : string) (value : pyval) (s : state) : state :=
  with_entry_ttl key value 1800 s.

Definition with_outage_after (n : nat) (s : state) : state :=
  State (prefix s) (entries s) (Some n) (db_users s) (db_data s)
    (db_counters s) (db_groups s).

Definition with_user (user_id : Z) (row : pyval) (s : state) : state :=
  State (prefix s) (entries s) (reachable_for s)
    (<[user_id := row]> (db_users s)) (db_data s) (db_counters s)
    (db_groups s).

Definition with_counter (user_id : Z) (counter_type : string) (v : pyval)
    (s : state) : state :=
  State (prefix s) (entries s) (reachable_for s) (db_users s) (db_data s)
    (<[(user_id, counter_type) := v]> (db_counters s)) (db_groups s).

Definition with_group (g : string) (users : pyval) (s : state) : state :=
  State (prefix s) (entries s) (reachable_for s) (db_users s) (db_data s)
    (db_counters s) (<[g := users]> (db_groups s)).

End store_model.


(* ===================================================================== *)
(** ** Vocabulary of the properties *)
(* ===================================================================== *)

(** How often a callable passed in under the name [func] was awaited. *)
Definition is_call (func : string) (ev : event) : bool :=
  match ev with EvCall f _ _ => String.eqb f func | _ => false end.

Definition count_calls (func : string) (t : list event) : nat :=
  length (filter (λ ev, is_call func ev = true) t).

(** The writes of a logical call: cache [set]s and database updates. *)
Definition is_write (ev : event) : bool :=
  match ev with
  | EvSet _ _ _ _ => true
  | EvCall f _ _ => String.eqb f "update_counter_in_db"
  | _ => false
  end.

Definition writes (t : list event) : list event :=
  filter (λ ev, is_write ev = true) t.

Definition is_set (ev : event) : bool :=
  match ev with EvSet _ _ _ _ => true | _ => false end.

(** Read-miss-then-write: every [set] in the log comes after a [get] on the
    same key that returned nothing usable (absent or falsy). *)
Definition read_miss_then_write (t : list event) : Prop :=
  ∀ i key value ttl r,
    t !! i = Some (EvSet key value ttl r) →
    ∃ j cached,
      (j < i)%nat ∧ t !! j = Some (EvGet key (Ok cached))
      ∧ truthy cached = false.

(** No error leaves the call: it returns normally, or what it raises is a
    signal outside the [Exception] hierarchy, which [except Exception]
    leaves alone. *)
Definition lets_no_error_out {A} (r : outcome A) : Prop :=
  match r with
  | Ok _ => True
  | Raise e => exn_is_Exception e = false
  end.

(** The log entry [ev] records a cache operation that raised [e]. *)
Definition cache_event_raised (ev : event) (e : exn) : Prop :=
  match ev with
  | EvGetCache (Raise e') | EvGet _ (Raise e') | EvSet _ _ _ (Raise e') =>
      e' = e
  | _ => False
  end.

(** The integer a counter value stands for in [value + 1]. *)
Definition as_int (v : pyval) : option Z :=
  match v with
  | PInt z => Some z
  | PBool b => Some (if b then 1 else 0)
  | _ => None
  end.

(** The key a user is grouped under: the hash key of
    [user.get("status", "unknown")], when the user is a dictionary and the
    status is hashable. *)
Definition status_key (user : pyval) : option hkey :=
  match py_get user (PStr "status") (PStr "unknown") with
  | Ok status => hash_key status
  | Raise _ => None
  end.

(** The users of [users] with status key [h], in input order. *)
Definition members_of (h : hkey) (users : list pyval) : list pyval :=
  filter (λ u, status_key u = Some h) users.

Definition group_size (v : pyval) : nat :=
  match v with PList l => length l | _ => 0%nat end.

Definition total_grouped (d : pydict) : nat :=
  sum_list (group_size <$> d.*2).

(** What the loop of [get_grouped_user_data] has built once the users in
    [seen] are processed: hashable, pairwise different keys; under each
    status key the users seen with it, in order, and no empty group; as
    many grouped users as were seen. *)
Definition grouped_so_far (seen : list pyval) (d : pydict) : Prop :=
  NoDup (hash_key <$> d.*1)
  ∧ (None ∉ hash_key <$> d.*1)
  ∧ (∀ h, dict_lookup h d
          = match members_of h seen with
            | [] => None
            | ms => Some (PList ms)
            end)
  ∧ total_grouped d = length seen.

(** The distinct elements of a list in the order they first appear. *)
Definition first_seen {A} `{EqDecision A} (l : list A) : list A :=
  reverse (remove_dups (reverse l)).

(** No [":"] in the string: the separator of the cache keys. *)
Definition colon_free (s : string) : Prop :=
  ":"%char ∉ list_ascii_of_string s.

(** A decimal digit. *)
Definition digit_char (c : ascii) : Prop := is_Some (settings.digit_of c).

(** The value of a digit sequence read from the left, continuing from
    [acc]. *)
Fixpoint uint_fold (acc : Z) (d : Decimal.uint) : Z :=
  match d with
  | Decimal.Nil => acc
  | Decimal.D0 d => uint_fold (10 * acc + 0) d
  | Decimal.D1 d => uint_fold (10 * acc + 1) d
  | Decimal.D2 d => uint_fold (10 * acc + 2) d
  | Decimal.D3 d => uint_fold (10 * acc + 3) d
  | Decimal.D4 d => uint_fold (10 * acc + 4) d
  | Decimal.D5 d => uint_fold (10 * acc + 5) d
  | Decimal.D6 d => uint_fold (10 * acc + 6) d
  | Decimal.D7 d => uint_fold (10 * acc + 7) d
  | Decimal.D8 d => uint_fold (10 * acc + 8) d
  | Decimal.D9 d => uint_fold (10 * acc + 9) d
  end.

Section vocabulary.

Context {S Cache : Type} `{!Collaborators S Cache}.

(** The key has no entry: the client is obtained and [get] answers
    [None]. *)
Definition absent_in_cache (key : string) (s : S) : Prop :=
  ∃ c s1 s2, get_cache s = (Ok c, s1) ∧ cache_get c key s1 = (Ok PNone, s2).

(** "The fallback ran exactly once and its value came back". *)
Definition fallback_once_and_returned (key : string)
    (fallback_func : callable S) (ttl : Z) (s : S) : Prop :=
  let '(r, w) := run (safe_cache_get key fallback_func ttl) s in
  count_calls "fallback_func" (trace w) = 1%nat
  ∧ ∃ v, r = Ok v ∧ EvCall "fallback_func" [] (Ok v) ∈ trace w.

(** A cache operation of [safe_cache_get key fallback_func ttl], started
    from [s], raised [e]; [s'] is the external state and [t] the log at
    that point. *)
Inductive cache_op_raised (key : string) (fallback_func : callable S)
    (ttl : Z) (s : S) : exn → S → list event → Prop :=
| get_cache_raised e s1 :
    get_cache s = (Raise e, s1) →
    cache_op_raised key fallback_func ttl s e s1 [EvGetCache (Raise e)]
| get_raised c s1 e s2 :
    get_cache s = (Ok c, s1) →
    cache_get c key s1 = (Raise e, s2) →
    cache_op_raised key fallback_func ttl s e s2
      [EvGetCache (Ok ()); EvGet key (Raise e)]
| set_raised c s1 s2 data s3 e s4 :
    get_cache s = (Ok c, s1) →
    cache_get c key s1 = (Ok PNone, s2) →
    fallback_func s2 = (Ok data, s3) →
    cache_set c key data ttl s3 = (Raise e, s4) →
    cache_op_raised key fallback_func ttl s e s4
      [EvGetCache (Ok ()); EvGet key (Ok PNone);
       EvCall "fallback_func" [] (Ok data); EvSet key data ttl (Raise e)].

(** Where [increment_user_counter] takes the prior value from: the cache
    entry when there is one, the database otherwise. *)
Definition counter_prior (user_id : Z) (counter_type : string) (s : S)
    (prior : pyval) : Prop :=
  ∃ c s1 cached s2,
    get_cache s = (Ok c, s1)
    ∧ cache_get c ("user_counter:" +:+ str_of_int user_id +:+ ":"
                   +:+ counter_type) s1 = (Ok cached, s2)
    ∧ if is_None cached
      then ∃ s3, get_counter_from_db user_id counter_type s2 = (Ok prior, s3)
      else prior = cached.

(** The reads of [increment_user_counter] in full: the client [c] they
    obtained, the prior value, and the state [s'] they left. *)
Definition counter_read (user_id : Z) (counter_type : string) (s : S)
    (c : Cache) (prior : pyval) (s' : S) : Prop :=
  ∃ s1 cached s2,
    get_cache s = (Ok c, s1)
    ∧ cache_get c ("user_counter:" +:+ str_of_int user_id +:+ ":"
                   +:+ counter_type) s1 = (Ok cached, s2)
    ∧ if is_None cached
      then get_counter_from_db user_id counter_type s2 = (Ok prior, s')
      else prior = cached ∧ s' = s2.

(** "Cache and database hold [v] for the counter" in state [s]: it is
    what the client answers for the counter's key and what the database
    answers for the counter. *)
Definition counter_held (c : Cache) (user_id : Z) (counter_type : string)
    (v : pyval) (s : S) : Prop :=
  (∀ y s', cache_get c ("user_counter:" +:+ str_of_int user_id +:+ ":"
                        +:+ counter_type) s = (Ok y, s') → y = v)
  ∧ (∀ y s', get_counter_from_db user_id counter_type s = (Ok y, s') →
       y = v).

(** The contract the client and the database are under: a [set] with a
    positive TTL that reports success is what the next [get] on the key
    gives, the database gives back the counter it was handed, and a
    counter update leaves the cache as it is. *)
Definition honours_contract : Prop :=
  (∀ c key value ttl s r s' y s'',
     0 < ttl → cache_set c key value ttl s = (Ok r, s') → truthy r = true →
     cache_get c key s' = (Ok y, s'') → y = value)
  ∧ (∀ user_id counter_type value s r s' y s'',
       update_counter_in_db user_id counter_type value s = (Ok r, s') →
       get_counter_from_db user_id counter_type s' = (Ok y, s'') →
       y = value)
  ∧ (∀ user_id counter_type value s r s' c key,
       update_counter_in_db user_id counter_type value s = (Ok r, s') →
       (cache_get c key s').1 = (cache_get c key s).1).

End vocabulary.

(* ===================================================================== *)
(** ** Proof automation *)
(* ===================================================================== *)

(** Unfold the monadic plumbing down to the collaborators' calls. *)
Ltac unfold_m :=
  unfold run, bind, ret, raise, try_except, of_outcome, await_get_cache,
    await_get, await_set, await_call, await, print, load_global,
    create_task in *;
  simpl in *.

(** Case analysis on how a collaborator call ended. *)
Ltac case_call c :=
  let r := fresh "r" in
  let s := fresh "s" in
  let E := fresh "E" in
  destruct c as [r s] eqn:E; destruct r; simpl in *.

Ltac step_calls :=
  repeat match goal with
         | H : ?c = (_, _) |- context [?c] => rewrite H; simpl
         end.

(** Case analysis along a coroutine: split on the outcome of the next
    collaborator call, or on the test the code branches on. *)
Ltac next_call :=
  match goal with
  | |- context [let '(_, _) := ?c in _] =>
      lazymatch c with
      | context [let '(_, _) := _ in _] => fail
      | _ => idtac
      end;
      let E := fresh "E" in
      destruct c as [[?|?] ?] eqn:E; simpl
  end.

Ltac next_branch :=
  match goal with
  | |- context [if truthy ?v then _ else _] =>
      let Ht := fresh "Ht" in destruct (truthy v) eqn:Ht; simpl
  | |- context [is_None ?v] => destruct v; simpl
  | |- context [if exn_is_Exception ?e then _ else _] =>
      let He := fresh "He" in destruct (exn_is_Exception e) eqn:He; simpl
  | |- context [group_users ?u] => destruct (group_users u); simpl
  | |- context [py_add_one ?v] =>
      let Ha := fresh "Ha" in destruct (py_add_one v) eqn:Ha; simpl
  end.

Ltac run_cases := repeat first [next_call | next_branch].

Ltac solve_rmw :=
  let i := fresh "i" in
  let Hi := fresh "Hi" in
  intros i ? ? ? ? Hi;
  repeat (destruct i as [|i]; simpl in Hi; try discriminate);
  try (injection Hi as <- <- <- <-;
       eexists 1%nat, _;
       split; [lia | split; [reflexivity | eassumption || reflexivity]]).

(* ===================================================================== *)
(** ** Properties of config/settings.py *)
(* ===================================================================== *)

Module settings_facts.
Import settings.

Lemma py_int_defaults :
  py_int "6379" = Ok 6379 ∧ py_int "0" = Ok 0 ∧ py_int "3600" = Ok 3600.
Proof. repeat split; reflexivity. Qed.

Lemma truthy_str (s : string) : truthy (PStr s) = true ↔ s ≠ "".
Proof.
  simpl. destruct (String.eqb_spec s ""); simpl; split; congruence.
Qed.

(** C4. [get_redis_url] gives [REDIS_URL] whenever it is non-empty;
    otherwise the URL is assembled from the discrete settings, with the
    [:password@] part exactly when [REDIS_PASSWORD] is non-empty. *)
Theorem get_redis_url_precedence (cls : RedisConfig) :
  (REDIS_URL cls ≠ "" → get_redis_url cls = REDIS_URL cls)
  ∧ (REDIS_URL cls = "" → REDIS_PASSWORD cls ≠ "" →
     get_redis_url cls =
       "redis://:" +:+ REDIS_PASSWORD cls +:+ "@" +:+ REDIS_HOST cls +:+ ":"
       +:+ str_of_int (REDIS_PORT cls) +:+ "/" +:+ str_of_int (REDIS_DB cls))
  ∧ (REDIS_URL cls = "" → REDIS_PASSWORD cls = "" →
     get_redis_url cls =
       "redis://" +:+ REDIS_HOST cls +:+ ":" +:+ str_of_int (REDIS_PORT cls)
       +:+ "/" +:+ str_of_int (REDIS_DB cls)).
Proof.
  unfold get_redis_url. split; [|split].
  - intros Hurl. apply truthy_str in Hurl. by rewrite Hurl.
  - intros -> Hpw. apply truthy_str in Hpw. by rewrite Hpw.
  - by intros -> ->.
Qed.

Lemma get_redis_url_precedence_witness :
  get_redis_url (Build_RedisConfig "cache.local" 6380 2 "s3cret"
                   "rediss://elsewhere:1/9" 3600 "bot_cache:")
    = "rediss://elsewhere:1/9"
  ∧ get_redis_url (Build_RedisConfig "cache.local" 6380 2 "s3cret" ""
                     3600 "bot_cache:")
    = "redis://:s3cret@cache.local:6380/2"
  ∧ get_redis_url (Build_RedisConfig "cache.local" 6380 2 "" "" 3600
                     "bot_cache:")
    = "redis://cache.local:6380/2".
Proof.
  split; [|split].
  - apply (get_redis_url_precedence
             (Build_RedisConfig "cache.local" 6380 2 "s3cret"
                "rediss://elsewhere:1/9" 3600 "bot_cache:")).
    simpl. discriminate.
  - apply (get_redis_url_precedence
             (Build_RedisConfig "cache.local" 6380 2 "s3cret" ""
                3600 "bot_cache:")).
    + reflexivity.
    + simpl. discriminate.
  - apply (get_redis_url_precedence
             (Build_RedisConfig "cache.local" 6380 2 "" "" 3600
                "bot_cache:")); reflexivity.
Defined.

(** C5. With the variables unset the class attributes take the documented
    defaults, each setting on its own: host [localhost], port [6379],
    database [0], empty password, TTL [3600], prefix [bot_cache:].  The
    class body asks the environment for each name once, when the module is
    imported; the import succeeds as soon as the three numeric variables
    are unset. *)
Theorem RedisConfig_defaults (env : environ) :
  (env !! "REDIS_PORT" = None → env !! "REDIS_DB" = None →
   env !! "CACHE_TTL" = None → is_Ok (import_settings env).1 = true)
  ∧ ∀ cls log,
      import_settings env = (Ok cls, log) →
      (env !! "REDIS_HOST" = None → REDIS_HOST cls = "localhost")
      ∧ (env !! "REDIS_PORT" = None → REDIS_PORT cls = 6379)
      ∧ (env !! "REDIS_DB" = None → REDIS_DB cls = 0)
      ∧ (env !! "REDIS_PASSWORD" = None → REDIS_PASSWORD cls = "")
      ∧ (env !! "CACHE_TTL" = None → CACHE_TTL cls = 3600)
      ∧ (env !! "CACHE_PREFIX" = None → CACHE_PREFIX cls = "bot_cache:")
      ∧ log = ["REDIS_HOST"; "REDIS_PORT"; "REDIS_DB"; "REDIS_PASSWORD";
               "REDIS_URL"; "CACHE_TTL"; "CACHE_PREFIX"].
Proof.
  unfold import_settings, RedisConfig_body, bind, os_getenv, of_outcome, ret.
  split.
  - intros -> -> ->. reflexivity.
  - intros cls log. simpl.
    destruct (py_int (default "6379" (env !! "REDIS_PORT")))
      as [port|?] eqn:Hport; [|discriminate].
    destruct (py_int (default "0" (env !! "REDIS_DB")))
      as [db|?] eqn:Hdb; [|discriminate].
    destruct (py_int (default "3600" (env !! "CACHE_TTL")))
      as [ttl|?] eqn:Httl; [|discriminate].
    intros [= <- <-]. simpl.
    repeat split.
    + by intros ->.
    + intros Hn. rewrite Hn in Hport. by injection Hport.
    + intros Hn. rewrite Hn in Hdb. by injection Hdb.
    + by intros ->.
    + intros Hn. rewrite Hn in Httl. by injection Httl.
    + by intros ->.
Qed.

Lemma RedisConfig_defaults_witness :
  is_Ok (import_settings ∅).1 = true
  ∧ import_settings ∅ =
      (Ok (Build_RedisConfig "localhost" 6379 0 "" "" 3600 "bot_cache:"),
       ["REDIS_HOST"; "REDIS_PORT"; "REDIS_DB"; "REDIS_PASSWORD";
        "REDIS_URL"; "CACHE_TTL"; "CACHE_PREFIX"])
  ∧ CACHE_PREFIX (Build_RedisConfig "localhost" 6379 0 "" "" 3600
                    "bot_cache:") = "bot_cache:".
Proof.
  split; [|split].
  - apply (RedisConfig_defaults ∅); reflexivity.
  - reflexivity.
  - apply (proj2 (RedisConfig_defaults ∅)
             (Build_RedisConfig "localhost" 6379 0 "" "" 3600 "bot_cache:")
             ["REDIS_HOST"; "REDIS_PORT"; "REDIS_DB"; "REDIS_PASSWORD";
              "REDIS_URL"; "CACHE_TTL"; "CACHE_PREFIX"]);
      reflexivity.
Defined.

End settings_facts.

(* ===================================================================== *)
(** ** Properties of examples/cache_integration_examples.py *)
(* ===================================================================== *)

Section reference_store.
Import store_model.

(** The reference client has the round-trip property of the cache
    contract: for a positive TTL, what [set] stored is what the next [get]
    on the key gives, and other keys keep their entries. *)
Lemma reference_round_trip key value ttl s :
  reachable_for s = None → 0 < ttl →
  (bind (client_set key value ttl) (λ _, client_get key) s).1 = Ok value.
Proof.
  intros Hup Httl. unfold bind, client_set, client_get, round_trip, bind.
  rewrite Hup. destruct (Z.ltb_spec 0 ttl) as [_|]; [|lia].
  simpl. rewrite Hup. simpl.
  by rewrite lookup_insert_eq.
Qed.

Lemma reference_set_keeps_others key key' value ttl s :
  reachable_for s = None → key ≠ key' →
  (bind (client_set key value ttl) (λ _, client_get key') s).1
  = (client_get key' s).1.
Proof.
  intros Hup Hne. unfold bind, client_set, client_get, round_trip, bind.
  rewrite Hup. destruct (Z.ltb_spec 0 ttl) as [_|_]; simpl; rewrite Hup;
    [|done].
  simpl. rewrite lookup_insert_ne; [done|].
  intros Heq. apply Hne. by apply (inj (String.app (prefix s))) in Heq.
Qed.

(** The reference client and database are under the contract, whatever
    outage is scheduled. *)
Lemma reference_honours_contract : honours_contract.
Proof.
  split; [|split].
  - intros [] key value ttl s r s' y s'' Httl. simpl.
    unfold client_set, client_get, bind, round_trip.
    destruct (Z.ltb_spec 0 ttl) as [_|]; [|lia].
    destruct (reachable_for s) as [[|n]|] eqn:Hup; simpl;
      intros [= <- <-] _; simpl; try rewrite Hup;
      try (destruct n; simpl); intros [= <- _];
      by rewrite lookup_insert_eq.
  - intros user_id counter_type value s r s' y s''. simpl.
    unfold db_update_counter. intros [= _ <-] [= <- _]. simpl.
    by rewrite lookup_insert_eq.
  - intros user_id counter_type value s r s' [] key. simpl.
    unfold db_update_counter, client_get, bind, round_trip.
    intros [= _ <-]. simpl. by destruct (reachable_for s) as [[|n]|].
Qed.

(** So is the client whose writes are refused: it never reports a
    success. *)
Lemma set_refused_honours_contract :
  @honours_contract state () set_refused.
Proof.
  split; [|split].
  - intros [] key value ttl s r s' y s'' _. simpl.
    unfold bind, round_trip, ret.
    destruct (reachable_for s) as [[|n]|]; simpl; intros [= <- _];
      discriminate.
  - intros user_id counter_type value s r s' y s''. simpl.
    unfold db_update_counter. intros [= _ <-] [= <- _]. simpl.
    by rewrite lookup_insert_eq.
  - intros user_id counter_type value s r s' [] key. simpl.
    unfold db_update_counter, client_get, bind, round_trip.
    intros [= _ <-]. simpl. by destruct (reachable_for s) as [[|n]|].
Qed.

End reference_store.

Section hit_paths.

Context {S Cache : Type} `{!Collaborators S Cache}.

(** A hit on a truthy value: the cached value comes back after one [get],
    and nothing else is called. *)
Lemma get_user_data_with_conditional_cache_hit msg s c s1 cached s2 :
  get_cache s = (Ok c, s1) →
  cache_get c ("user_data:" +:+ str_of_int (id (from_user msg))) s1
    = (Ok cached, s2) →
  truthy cached = true →
  run (get_user_data_with_conditional_cache msg) s
    = (Ok cached,
       World s2 [EvGetCache (Ok ());
                 EvGet ("user_data:" +:+ str_of_int (id (from_user msg)))
                   (Ok cached)] []).
Proof.
  intros Hc Hg Ht. unfold get_user_data_with_conditional_cache. unfold_m.
  rewrite Hc. simpl. rewrite Hg. simpl. rewrite Ht. reflexivity.
Qed.

Lemma get_grouped_user_data_hit group_id s c s1 cached s2 :
  get_cache s = (Ok c, s1) →
  cache_get c ("grouped_users:" +:+ group_id) s1 = (Ok cached, s2) →
  truthy cached = true →
  run (get_grouped_user_data group_id) s
    = (Ok cached,
       World s2 [EvGetCache (Ok ());
                 EvGet ("grouped_users:" +:+ group_id) (Ok cached)] []).
Proof.
  intros Hc Hg Ht. unfold get_grouped_user_data. unfold_m.
  rewrite Hc. simpl. rewrite Hg. simpl. rewrite Ht. reflexivity.
Qed.

(** An entry holding a falsy value is not served: the database is asked
    again, exactly as on a miss. *)
Lemma get_grouped_user_data_falsy group_id s c s1 cached s2 :
  get_cache s = (Ok c, s1) →
  cache_get c ("grouped_users:" +:+ group_id) s1 = (Ok cached, s2) →
  truthy cached = false →
  ∃ r s3,
    fetch_users_by_group group_id s2 = (r, s3)
    ∧ (trace (run (get_grouped_user_data group_id) s).2) !! 2%nat
      = Some (EvCall "fetch_users_by_group" [PStr group_id] r).
Proof.
  intros Hc Hg Ht. unfold get_grouped_user_data. unfold_m.
  rewrite Hc. simpl. rewrite Hg. simpl. rewrite Ht. simpl.
  destruct (fetch_users_by_group group_id s2) as [r s3] eqn:Hf.
  exists r, s3. split; [done|].
  destruct r as [users|e]; simpl; [|done].
  destruct (group_users users); simpl; [|done].
  by destruct (cache_set _ _ _ _ _) as [[?|?] ?].
Qed.

(** On a truthy hit [get_auto_refresh_data] reaches the [asyncio] line,
    and the module never imported that name. *)
Lemma get_auto_refresh_data_hit key fetch_func ttl s c s1 cached s2 :
  get_cache s = (Ok c, s1) →
  cache_get c key s1 = (Ok cached, s2) →
  truthy cached = true →
  run (get_auto_refresh_data key fetch_func ttl) s
    = (Raise (NameError "asyncio"),
       World s2 [EvGetCache (Ok ()); EvGet key (Ok cached)] []).
Proof.
  intros Hc Hg Ht. unfold get_auto_refresh_data. unfold_m.
  rewrite Hc. simpl. rewrite Hg. simpl. rewrite Ht. reflexivity.
Qed.

(** Scheduling a task queues it and runs nothing. *)
Lemma create_task_defers (coro : task S) (w : world S) :
  create_task coro w
    = (Ok (), World (ext w) (trace w) (tasks w ++ [coro])).
Proof. reflexivity. Qed.

End hit_paths.

Import store_model.

(** C1. The truth test [if cached_data:] turns a present entry whose value
    is falsy into a miss.  A group without users is cached as [{}] by the
    first call of [get_grouped_user_data]; the second call with the same
    argument finds the entry and still asks the database again.  Likewise,
    once [cache_user_session_data] has stored an empty [user_info] under
    the user's key, [get_user_data_with_conditional_cache] fetches the user
    from the database instead of returning the entry. *)
Theorem falsy_entry_is_fetched_again :
  let s0 := with_group "g1" (PList []) empty_state in
  let first := run (get_grouped_user_data "g1") s0 in
  let second := run (get_grouped_user_data "g1") (ext first.2) in
  let row := PDict [(PStr "is_active", PBool true)] in
  let session :=
    run (cache_user_session_data 7 (PDict [(PStr "user_info", PDict [])]))
      (with_user 7 row empty_state) in
  let read :=
    run (get_user_data_with_conditional_cache (Build_message (Build_user 7)))
      (ext session.2) in
  first.1 = Ok (PDict [])
  ∧ entries (ext first.2) !! "bot_cache:grouped_users:g1"
    = Some (PDict [], 1800)
  ∧ trace second.2
    = [EvGetCache (Ok ()); EvGet "grouped_users:g1" (Ok (PDict []));
       EvCall "fetch_users_by_group" [PStr "g1"] (Ok (PList []));
       EvSet "grouped_users:g1" (PDict []) 1800 (Ok (PBool true))]
  ∧ entries (ext session.2) !! "bot_cache:user_data:7"
    = Some (PDict [], 3600)
  ∧ read.1 = Ok row
  ∧ trace read.2
    = [EvGetCache (Ok ()); EvGet "user_data:7" (Ok (PDict []));
       EvCall "fetch_user_data_from_db" [PInt 7] (Ok row);
       EvSet "user_data:7" row 1800 (Ok (PBool true))].
Proof. vm_compute. repeat split; reflexivity. Qed.

(** C7. A hit in [get_auto_refresh_data] does not return the cached value.
    On a truthy entry the call stops at [asyncio.create_task]: the module
    has no [import asyncio], the name lookup raises [NameError], and no
    task is scheduled.  On a present but falsy entry the truth test sends
    the call down the miss path, where the producer is awaited by the
    caller and its failure reaches the caller. *)
Theorem auto_refresh_hit_does_not_return_cached :
  let fetch_func : callable state := λ s, (Ok (PInt 7), s) in
  let failing : callable state :=
    λ s, (Raise (Exn "TimeoutError" "database timed out" true), s) in
  let hit :=
    run (get_auto_refresh_data "k" fetch_func 60)
      (with_entry "k" (PList [PInt 1]) empty_state) in
  hit.1 = Raise (NameError "asyncio")
  ∧ trace hit.2 = [EvGetCache (Ok ()); EvGet "k" (Ok (PList [PInt 1]))]
  ∧ tasks hit.2 = []
  ∧ (run (get_auto_refresh_data "k" fetch_func 60)
       (with_entry "k" (PInt 0) empty_state)).1 = Ok (PInt 7)
  ∧ (run (get_auto_refresh_data "k" failing 60)
       (with_entry "k" (PInt 0) empty_state)).1
    = Raise (Exn "TimeoutError" "database timed out" true).
Proof. vm_compute. repeat split; reflexivity. Qed.

Section fallback_and_refresh.

Context {S Cache : Type} `{!Collaborators S Cache}.

(** C2. Whichever cache operation of [safe_cache_get] raises an error
    ([get_cache], [get], or [set] after a miss), the error stops in the
    [except] clause: the call logs it and ends the way awaiting
    [fallback_func] ends in the state the failure left. *)
Theorem safe_cache_get_survives_cache_errors
    (key : string) (fallback_func : callable S) (ttl : Z) (s : S)
    (e : exn) (s' : S) (t : list event) :
  cache_op_raised key fallback_func ttl s e s' t →
  exn_is_Exception e = true →
  run (safe_cache_get key fallback_func ttl) s
    = ((fallback_func s').1,
       World (fallback_func s').2
         (t ++ [EvPrint ("Ошибка кеширования: " +:+ exn_text e);
                EvCall "fallback_func" [] (fallback_func s').1])
         []).
Proof.
  intros Hop He. unfold safe_cache_get. unfold_m.
  destruct Hop as [e s1 Hc | c s1 e s2 Hc Hg | c s1 s2 d s3 e s4 Hc Hg Hf Hs];
    step_calls; rewrite He; simpl;
    match goal with
    | |- context [let '(_, _) := ?call in _] => by destruct call
    end.
Qed.

(** C3, as the code has it.  On an absent key, when the fallback returns
    and [cache.set] succeeds, the fallback has been awaited exactly once and
    its value is what the call returns. *)
Theorem safe_cache_get_fallback_once
    (key : string) (fallback_func : callable S) (ttl : Z)
    (s : S) (c : Cache) (s1 s2 : S) (data : pyval) (s3 : S)
    (r : pyval) (s4 : S) :
  get_cache s = (Ok c, s1) →
  cache_get c key s1 = (Ok PNone, s2) →
  fallback_func s2 = (Ok data, s3) →
  cache_set c key data ttl s3 = (Ok r, s4) →
  let result := run (safe_cache_get key fallback_func ttl) s in
  result.1 = Ok data
  ∧ count_calls "fallback_func" (trace result.2) = 1%nat
  ∧ trace result.2
    = [EvGetCache (Ok ()); EvGet key (Ok PNone);
       EvCall "fallback_func" [] (Ok data); EvSet key data ttl (Ok r)].
Proof.
  intros Hc Hg Hf Hs. unfold safe_cache_get. unfold_m. step_calls. done.
Qed.

(** When [cache.set] raises an error instead, the handler awaits the
    fallback once more, and the call ends as that second invocation does. *)
Lemma safe_cache_get_fallback_again
    (key : string) (fallback_func : callable S) (ttl : Z)
    (s : S) (c : Cache) (s1 s2 : S) (data : pyval) (s3 : S)
    (e : exn) (s4 : S) :
  get_cache s = (Ok c, s1) →
  cache_get c key s1 = (Ok PNone, s2) →
  fallback_func s2 = (Ok data, s3) →
  cache_set c key data ttl s3 = (Raise e, s4) →
  exn_is_Exception e = true →
  let result := run (safe_cache_get key fallback_func ttl) s in
  result.1 = (fallback_func s4).1
  ∧ count_calls "fallback_func" (trace result.2) = 2%nat.
Proof.
  intros Hc Hg Hf Hs He. unfold safe_cache_get. unfold_m. step_calls.
  rewrite He. simpl. by destruct (fallback_func s4) as [r sf].
Qed.

(** A signal outside the [Exception] hierarchy is not an error to the
    [except] clause: it passes through [safe_cache_get] untouched. *)
Lemma safe_cache_get_passes_signals
    (key : string) (fallback_func : callable S) (ttl : Z) (s : S)
    (e : exn) (s1 : S) :
  get_cache s = (Raise e, s1) →
  exn_is_Exception e = false →
  run (safe_cache_get key fallback_func ttl) s
    = (Raise e, World s1 [EvGetCache (Raise e)] []).
Proof.
  intros Hc He. unfold safe_cache_get. unfold_m. step_calls. by rewrite He.
Qed.

(** The three cases of [cache_op_raised] are all there is: a cache
    operation that raised in the log of a call is one of them. *)
Lemma cache_op_raised_complete
    (key : string) (fallback_func : callable S) (ttl : Z) (s : S)
    (ev : event) (e : exn) :
  ev ∈ trace (run (safe_cache_get key fallback_func ttl) s).2 →
  cache_event_raised ev e →
  ∃ s' t, cache_op_raised key fallback_func ttl s e s' t.
Proof.
  unfold safe_cache_get. unfold_m. run_cases; intros Hin Hev;
    repeat (apply elem_of_cons in Hin as [->|Hin]);
    try (by apply elem_of_nil in Hin);
    simpl in Hev; try done; subst;
    eexists _, _;
    first [ by eapply get_cache_raised
          | by eapply get_raised
          | by eapply set_raised ].
Qed.

(** C6. [refresh_cache_background] lets no error out, whichever of
    [get_cache], the producer and [cache.set] fails: the failure is printed
    and dropped, and the call returns.  When the producer raises, nothing
    is written: the log holds no [set] and the external state is the one
    the producer left, so an entry the producer did not touch is as it was
    before the refresh. *)
Theorem refresh_cache_background_contains_failures
    (key : string) (fetch_func : callable S) (ttl : Z) (s : S) :
  let result := run (refresh_cache_background key fetch_func ttl) s in
  lets_no_error_out result.1
  ∧ ∀ c s1 e s2,
      get_cache s = (Ok c, s1) →
      fetch_func s1 = (Raise e, s2) →
      ext result.2 = s2
      ∧ Forall (λ ev, is_set ev = false) (trace result.2)
      ∧ (exn_is_Exception e = true → result.1 = Ok ()).
Proof.
  unfold refresh_cache_background, lets_no_error_out. unfold_m. split.
  - case_call (get_cache s).
    + case_call (fetch_func s0).
      * case_call (cache_set a key a0 ttl s1); [done|].
        by destruct (exn_is_Exception e) eqn:He.
      * by destruct (exn_is_Exception e) eqn:He.
    + by destruct (exn_is_Exception e) eqn:He.
  - intros c s1 e s2 Hc Hf. step_calls.
    destruct (exn_is_Exception e) eqn:He; simpl;
      repeat split; try done; repeat constructor.
Qed.

(** The same for every error: whatever raises an error inside the refresh,
    the call returns [None]. *)
Lemma refresh_cache_background_returns
    (key : string) (fetch_func : callable S) (ttl : Z) (s : S) :
  (∀ ev e, ev ∈ trace (run (refresh_cache_background key fetch_func ttl) s).2
           → match ev with
             | EvGetCache (Raise e') | EvSet _ _ _ (Raise e')
             | EvCall _ _ (Raise e') => e' = e
             | _ => False
             end
           → exn_is_Exception e = true) →
  (run (refresh_cache_background key fetch_func ttl) s).1 = Ok ().
Proof.
  unfold refresh_cache_background. unfold_m. run_cases; intros Herr;
    try done.
  all: exfalso;
    match goal with
    | He : exn_is_Exception ?e = false |- _ =>
        rewrite (Herr _ e ltac:(right; left) eq_refl) in He
        || rewrite (Herr _ e ltac:(right; right; left) eq_refl) in He
        || rewrite (Herr _ e ltac:(left) eq_refl) in He
    end; discriminate.
Qed.

End fallback_and_refresh.

Section ordering.

Context {S Cache : Type} `{!Collaborators S Cache}.

(** C8. In one logical call of [get_priority_data], of
    [get_grouped_user_data] or of [safe_cache_get], whatever the
    collaborators do, a [set] is logged only after a [get] on the same key
    that returned normally with an absent or falsy value. *)
Theorem set_only_after_missed_get (s : S) :
  (∀ data_type priority,
     read_miss_then_write
       (trace (run (get_priority_data data_type priority) s).2))
  ∧ (∀ group_id,
       read_miss_then_write
         (trace (run (get_grouped_user_data group_id) s).2))
  ∧ (∀ key fallback_func ttl,
       read_miss_then_write
         (trace (run (safe_cache_get key fallback_func ttl) s).2)).
Proof.
  split; [|split].
  - intros data_type priority. unfold get_priority_data. unfold_m.
    run_cases; solve_rmw.
  - intros group_id. unfold get_grouped_user_data. unfold_m.
    run_cases; solve_rmw.
  - intros key fallback_func ttl. unfold safe_cache_get. unfold_m.
    run_cases; solve_rmw.
Qed.

End ordering.

Section counters.

Context {S Cache : Type} `{!Collaborators S Cache}.

Lemma py_add_one_int (prior v : pyval) :
  py_add_one prior = Ok v ↔ ∃ n, as_int prior = Some n ∧ v = PInt (n + 1).
Proof.
  destruct prior; simpl; split;
    try (intros [= <-]; eauto); try discriminate;
    try (intros (n & [= <-] & ->); reflexivity);
    intros (n & Hn & _); discriminate.
Qed.

(** C9, as the code has it.  A call of [increment_user_counter] that
    returns has handed one value to both writers and returned it: the
    prior value (the cache entry if there is one, the database's
    otherwise) plus one goes to [cache.set] under the counter's key in the
    state the reads left, then to [update_counter_in_db] in the state the
    [set] left, and the call ends in the state the update left; these are
    its only writes.  With the client and the database under their
    contract, cache and database both hold that value afterwards whenever
    [cache.set] reported success. *)
Theorem increment_user_counter_consistent
    (user_id : Z) (counter_type : string) (s : S) (v : pyval)
    (w : world S) :
  let key :=
    "user_counter:" +:+ str_of_int user_id +:+ ":" +:+ counter_type in
  honours_contract →
  run (increment_user_counter user_id counter_type) s = (Ok v, w) →
  ∃ c prior n s3 r_set s4 r_db,
    counter_read user_id counter_type s c prior s3
    ∧ as_int prior = Some n
    ∧ v = PInt (n + 1)
    ∧ cache_set c key v 7200 s3 = (Ok r_set, s4)
    ∧ update_counter_in_db user_id counter_type v s4 = (Ok r_db, ext w)
    ∧ writes (trace w)
      = [EvSet key v 7200 (Ok r_set);
         EvCall "update_counter_in_db"
           [PInt user_id; PStr counter_type; v] (Ok r_db)]
    ∧ (truthy r_set = true →
       counter_held c user_id counter_type v (ext w)).
Proof.
  intros key (Hround & Hdb_get & Hdb_cache). subst key.
  assert (Hheld : ∀ c nv s3 r_set s4 r_db s5,
    cache_set c ("user_counter:" +:+ str_of_int user_id +:+ ":"
                 +:+ counter_type) nv 7200 s3 = (Ok r_set, s4) →
    update_counter_in_db user_id counter_type nv s4 = (Ok r_db, s5) →
    truthy r_set = true →
    counter_held c user_id counter_type nv s5).
  { intros c nv s3 r_set s4 r_db s5 Hs Hu Hr. split.
    - intros y s' Hget.
      pose proof (Hdb_cache _ _ _ _ _ _ c
                    ("user_counter:" +:+ str_of_int user_id +:+ ":"
                     +:+ counter_type) Hu) as Hsame.
      rewrite Hget in Hsame. simpl in Hsame.
      destruct (cache_get c _ s4) as [r' s''] eqn:Hget4. simpl in Hsame.
      subst r'. eapply Hround; [|exact Hs|exact Hr|exact Hget4]. done.
    - intros y s' Hget. by apply (Hdb_get _ _ _ _ _ _ _ _ Hu Hget). }
  unfold increment_user_counter, counter_read. unfold_m.
  destruct (get_cache s) as [[c|?] s1] eqn:Hc; simpl; [|discriminate].
  destruct (cache_get c _ s1) as [[cached|?] s2] eqn:Hg; simpl;
    [|discriminate].
  destruct (is_None cached) eqn:Hnone; simpl.
  - destruct (get_counter_from_db user_id counter_type s2)
      as [[prior|?] s3] eqn:Hdb; simpl; [|discriminate].
    destruct (py_add_one prior) as [nv|?] eqn:Ha; simpl; [|discriminate].
    destruct (cache_set c _ nv 7200 s3) as [[r_set|?] s4] eqn:Hs; simpl;
      [|discriminate].
    destruct (update_counter_in_db user_id counter_type nv s4)
      as [[r_db|?] s5] eqn:Hu; simpl; [|discriminate].
    intros [= <- <-]. apply py_add_one_int in Ha as (n & Hn & ->).
    exists c, prior, n, s3, r_set, s4, r_db. simpl.
    repeat split; try done; try by eapply Hheld.
    exists s1, cached, s2. by rewrite Hnone.
  - destruct (py_add_one cached) as [nv|?] eqn:Ha; simpl; [|discriminate].
    destruct (cache_set c _ nv 7200 s2) as [[r_set|?] s4] eqn:Hs; simpl;
      [|discriminate].
    destruct (update_counter_in_db user_id counter_type nv s4)
      as [[r_db|?] s5] eqn:Hu; simpl; [|discriminate].
    intros [= <- <-]. apply py_add_one_int in Ha as (n & Hn & ->).
    exists c, cached, n, s2, r_set, s4, r_db. simpl.
    repeat split; try done; try by eapply Hheld.
    exists s1, cached, s2. by rewrite Hnone.
Qed.

End counters.

(* ===================================================================== *)
(** ** The grouping loop *)
(* ===================================================================== *)

Section dictionaries.

Implicit Types (d : pydict) (h : hkey) (k v : pyval).

Lemma dict_lookup_store_eq h key v d :
  hash_key key = Some h → dict_lookup h (dict_store h key v d) = Some v.
Proof.
  intros Hk. induction d as [|[k' v'] d IH]; csimpl.
  - by rewrite bool_decide_eq_true_2.
  - case_bool_decide as Hd; csimpl.
    + by rewrite bool_decide_eq_true_2.
    + by rewrite bool_decide_eq_false_2.
Qed.

Lemma dict_lookup_store_ne h h' key v d :
  hash_key key = Some h → h' ≠ h →
  dict_lookup h' (dict_store h key v d) = dict_lookup h' d.
Proof.
  intros Hk Hne. induction d as [|[k' v'] d IH]; csimpl.
  - rewrite bool_decide_eq_false_2; [done|]. congruence.
  - case_bool_decide as Hd; csimpl.
    + rewrite !bool_decide_eq_false_2; [done|congruence..].
    + case_bool_decide; [done|]. apply IH.
Qed.

Lemma dict_lookup_None h d :
  dict_lookup h d = None ↔ Some h ∉ (hash_key <$> d.*1).
Proof.
  induction d as [|[k' v'] d IH]; csimpl.
  - split; [intros _; apply not_elem_of_nil|done].
  - rewrite not_elem_of_cons. case_bool_decide as Hd; split.
    + discriminate.
    + intros [Hne _]. by destruct Hne.
    + intros Hl. split; [congruence|by apply IH].
    + intros [_ Hn]. by apply IH.
Qed.

(** The keys after a store: unchanged when the key was there, one more at
    the end otherwise. *)
Lemma dict_store_keys h key v d :
  hash_key key = Some h →
  hash_key <$> (dict_store h key v d).*1
    = match dict_lookup h d with
      | Some _ => hash_key <$> d.*1
      | None => (hash_key <$> d.*1) ++ [Some h]
      end.
Proof.
  intros Hk. induction d as [|[k' v'] d IH]; csimpl.
  - by rewrite Hk.
  - case_bool_decide as Hd; csimpl; [done|].
    rewrite IH. by destruct (dict_lookup h d).
Qed.

Lemma dict_store_total h key v d :
  (total_grouped (dict_store h key v d)
   + group_size (default (PList []) (dict_lookup h d))
   = total_grouped d + group_size v)%nat.
Proof.
  unfold total_grouped.
  induction d as [|[k' v'] d IH]; csimpl; [lia|].
  case_bool_decide as Hd; csimpl; lia.
Qed.

Lemma dict_elem_lookup h k v d :
  NoDup (hash_key <$> d.*1) → (k, v) ∈ d → hash_key k = Some h →
  dict_lookup h d = Some v.
Proof.
  intros Hnd Hin Hk. induction d as [|[k' v'] d IH]; csimpl in *.
  - by apply elem_of_nil in Hin.
  - apply NoDup_cons in Hnd as [Hfresh Hnd].
    apply elem_of_cons in Hin as [[= <- <-]|Hin].
    + by rewrite bool_decide_eq_true_2.
    + case_bool_decide as Hd; [|by apply IH].
      destruct Hfresh. rewrite Hd, <- Hk.
      apply (list_elem_of_fmap_2 hash_key).
      by apply (list_elem_of_fmap_2 fst _ (k, v)).
Qed.

Lemma dict_lookup_elem h v d :
  dict_lookup h d = Some v → ∃ k, (k, v) ∈ d ∧ hash_key k = Some h.
Proof.
  induction d as [|[k' v'] d IH]; csimpl; [done|].
  case_bool_decide as Hd.
  - intros [= <-]. exists k'. split; [apply list_elem_of_here|done].
  - intros Hl. destruct (IH Hl) as (k & Hin & Hk).
    exists k. split; [by apply list_elem_of_further|done].
Qed.

End dictionaries.

Section grouping.

Implicit Types (d : pydict) (h : hkey) (u : pyval) (seen users : list pyval).

Lemma dict_store_twice h key v1 v2 d :
  hash_key key = Some h →
  dict_store h key v2 (dict_store h key v1 d) = dict_store h key v2 d.
Proof.
  intros Hk. induction d as [|[k' v'] d IH]; csimpl.
  - by rewrite bool_decide_eq_true_2.
  - case_bool_decide as Hd; csimpl.
    + by rewrite bool_decide_eq_true_2.
    + rewrite bool_decide_eq_false_2; [|done]. by rewrite IH.
Qed.

Lemma members_of_snoc h seen u :
  members_of h (seen ++ [u])
  = members_of h seen ++ (if decide (status_key u = Some h) then [u] else []).
Proof.
  unfold members_of. by rewrite filter_app.
Qed.

Lemma grouped_so_far_nil : grouped_so_far [] [].
Proof.
  split; [constructor|]. split; [apply not_elem_of_nil|]. by split.
Qed.

(** One turn of the loop appends the user to the group of its status,
    opening the group first when the status is new. *)
Lemma group_step_spec seen d u h :
  status_key u = Some h →
  grouped_so_far seen d →
  ∃ status,
    hash_key status = Some h
    ∧ group_step d u
      = Ok (dict_store h status (PList (members_of h seen ++ [u])) d).
Proof.
  intros Hu (_ & _ & Hlook & _). unfold status_key in Hu.
  unfold group_step.
  destruct (py_get u (PStr "status") (PStr "unknown")) as [status|] eqn:Hget;
    [|done].
  exists status. split; [done|]. rewrite Hu.
  specialize (Hlook h).
  destruct (dict_lookup h d) as [old|] eqn:Hold.
  - rewrite Hold.
    destruct (members_of h seen) as [|m ms]; [done|].
    by injection Hlook as ->.
  - rewrite dict_lookup_store_eq by done.
    rewrite dict_store_twice by done.
    by destruct (members_of h seen).
Qed.

Lemma group_step_inv seen d u h :
  status_key u = Some h →
  grouped_so_far seen d →
  ∃ d', group_step d u = Ok d' ∧ grouped_so_far (seen ++ [u]) d'.
Proof.
  intros Hu Hinv.
  destruct (group_step_spec seen d u h Hu Hinv) as (status & Hst & ->).
  destruct Hinv as (Hnd & Hhash & Hlook & Htot).
  eexists. split; [done|]. repeat split.
  - rewrite dict_store_keys by done.
    destruct (dict_lookup h d) eqn:Hold; [done|].
    apply NoDup_app. split; [done|]. split; [|apply NoDup_singleton].
    intros x Hx ->%list_elem_of_singleton.
    by apply dict_lookup_None in Hold.
  - rewrite dict_store_keys by done.
    destruct (dict_lookup h d); [done|].
    rewrite elem_of_app, list_elem_of_singleton. by intros [?|?].
  - intros h'. rewrite members_of_snoc.
    destruct (decide (h' = h)) as [->|Hne].
    + rewrite dict_lookup_store_eq by done.
      rewrite decide_True by done.
      by destruct (members_of h seen).
    + rewrite dict_lookup_store_ne by done.
      rewrite decide_False by congruence.
      by rewrite app_nil_r.
  - pose proof (dict_store_total h status
                  (PList (members_of h seen ++ [u])) d) as Hsum.
    rewrite (Hlook h) in Hsum. rewrite length_app. simpl in *.
    rewrite length_app in Hsum. simpl in Hsum.
    destruct (members_of h seen); simpl in *; lia.
Qed.

Lemma group_loop_inv users : ∀ seen d,
  Forall (λ u, is_Some (status_key u)) users →
  grouped_so_far seen d →
  ∃ d', group_loop d users = Ok d' ∧ grouped_so_far (seen ++ users) d'.
Proof.
  induction users as [|u users IH]; intros seen d Hall Hinv; simpl.
  - exists d. by rewrite app_nil_r.
  - apply Forall_cons in Hall as [[h Hu] Hall].
    destruct (group_step_inv seen d u h Hu Hinv) as (d1 & -> & Hinv1).
    destruct (IH (seen ++ [u]) d1 Hall Hinv1) as (d' & Hloop & Hinv').
    exists d'. split; [done|]. by rewrite <- app_assoc in Hinv'.
Qed.

(** C10. When every fetched user is a dictionary with a hashable status,
    the loop of [get_grouped_user_data] ends with a partition of the
    users: group keys are pairwise different; the group under a key is
    exactly the users with that status ("unknown" when the field is
    missing), in input order, and is never empty; every user sits in the
    group of its own status and in no other; and the group sizes add up to
    the number of users. *)
Theorem grouped_data_is_partition users :
  Forall (λ u, is_Some (status_key u)) users →
  ∃ grouped_data,
    group_users (PList users) = Ok grouped_data
    ∧ NoDup (hash_key <$> grouped_data.*1)
    ∧ (∀ k v, (k, v) ∈ grouped_data →
         ∃ h, hash_key k = Some h
              ∧ members_of h users ≠ []
              ∧ v = PList (members_of h users))
    ∧ (∀ u, u ∈ users →
         ∃ k h, status_key u = Some h
                ∧ hash_key k = Some h
                ∧ (k, PList (members_of h users)) ∈ grouped_data
                ∧ u ∈ members_of h users)
    ∧ (∀ k members u, (k, PList members) ∈ grouped_data → u ∈ members →
         hash_key k = status_key u)
    ∧ total_grouped grouped_data = length users.
Proof.
  intros Hall.
  destruct (group_loop_inv users [] [] Hall grouped_so_far_nil)
    as (d & Hloop & Hnd & Hhash & Hlook & Htot).
  simpl in *. exists d. repeat split; try done.
  - intros k v Hin.
    destruct (hash_key k) as [h|] eqn:Hk.
    + exists h. pose proof (dict_elem_lookup h k v d Hnd Hin Hk) as Hl.
      rewrite Hlook in Hl.
      destruct (members_of h users) as [|m ms]; [done|].
      by injection Hl as <-.
    + destruct Hhash. rewrite <- Hk.
      apply (list_elem_of_fmap_2 hash_key).
      by apply (list_elem_of_fmap_2 fst _ (k, v)).
  - intros u Hu.
    rewrite Forall_forall in Hall. destruct (Hall u Hu) as [h Hh].
    assert (Hmem : u ∈ members_of h users)
      by (by apply list_elem_of_filter).
    specialize (Hlook h).
    destruct (members_of h users) as [|m ms] eqn:Hms;
      [by apply elem_of_nil in Hmem|].
    destruct (dict_lookup_elem h _ d Hlook) as (k & Hin & Hk).
    exists k, h. rewrite Hms. split; [done|]. split; [done|]. by split.
  - intros k members u Hin Hu.
    destruct (hash_key k) as [h|] eqn:Hk.
    + pose proof (dict_elem_lookup h k _ d Hnd Hin Hk) as Hl.
      rewrite Hlook in Hl.
      destruct (members_of h users) as [|m ms] eqn:Hms; [done|].
      injection Hl as <-. rewrite <- Hms in Hu.
      by apply list_elem_of_filter in Hu as [-> _].
    + destruct Hhash. rewrite <- Hk.
      apply (list_elem_of_fmap_2 hash_key).
      by apply (list_elem_of_fmap_2 fst _ (k, PList members)).
Qed.

End grouping.

Section grouped_call.

Context {S Cache : Type} `{!Collaborators S Cache}.

(** The dictionary the loop builds is what [get_grouped_user_data] caches
    under the group's key and returns on a miss. *)
Lemma get_grouped_user_data_miss group_id s c s1 cached s2 users_data s3
    grouped_data :
  get_cache s = (Ok c, s1) →
  cache_get c ("grouped_users:" +:+ group_id) s1 = (Ok cached, s2) →
  truthy cached = false →
  fetch_users_by_group group_id s2 = (Ok users_data, s3) →
  group_users users_data = Ok grouped_data →
  let stored :=
    cache_set c ("grouped_users:" +:+ group_id) (PDict grouped_data) 1800 s3
  in
  run (get_grouped_user_data group_id) s
    = (match stored.1 with
       | Ok _ => Ok (PDict grouped_data)
       | Raise e => Raise e
       end,
       World stored.2
         [EvGetCache (Ok ());
          EvGet ("grouped_users:" +:+ group_id) (Ok cached);
          EvCall "fetch_users_by_group" [PStr group_id] (Ok users_data);
          EvSet ("grouped_users:" +:+ group_id) (PDict grouped_data) 1800
            stored.1] []).
Proof.
  intros Hc Hg Ht Hf Hgr. unfold get_grouped_user_data. unfold_m.
  rewrite Hc. simpl. rewrite Hg. simpl. rewrite Ht. simpl.
  rewrite Hf. simpl. rewrite Hgr. simpl.
  by destruct (cache_set c _ _ _ s3) as [[?|?] ?].
Qed.

End grouped_call.

(* ===================================================================== *)
(** ** The properties at concrete inputs *)
(* ===================================================================== *)

Lemma safe_cache_get_survives_cache_errors_witness :
  let fallback_func : callable state := λ s, (Ok (PInt 7), s) in
  (run (safe_cache_get "k" fallback_func 60)
     (with_outage_after 0 empty_state)).1 = Ok (PInt 7)
  ∧ (run (safe_cache_get "k" fallback_func 60)
       (with_outage_after 1 empty_state)).1 = Ok (PInt 7)
  ∧ (run (safe_cache_get "k" fallback_func 60)
       (with_outage_after 2 empty_state)).1 = Ok (PInt 7).
Proof.
  intros fallback_func. split; [|split].
  - rewrite (safe_cache_get_survives_cache_errors "k" fallback_func 60
               (with_outage_after 0 empty_state) StoreUnavailable
               (with_outage_after 0 empty_state)
               [EvGetCache (Raise StoreUnavailable)]).
    + reflexivity.
    + apply get_cache_raised. reflexivity.
    + reflexivity.
  - rewrite (safe_cache_get_survives_cache_errors "k" fallback_func 60
               (with_outage_after 1 empty_state) StoreUnavailable
               (with_outage_after 0 empty_state)
               [EvGetCache (Ok ()); EvGet "k" (Raise StoreUnavailable)]).
    + reflexivity.
    + apply (get_raised "k" fallback_func 60 _ ()
               (with_outage_after 0 empty_state)); reflexivity.
    + reflexivity.
  - rewrite (safe_cache_get_survives_cache_errors "k" fallback_func 60
               (with_outage_after 2 empty_state) StoreUnavailable
               (with_outage_after 0 empty_state)
               [EvGetCache (Ok ()); EvGet "k" (Ok PNone);
                EvCall "fallback_func" [] (Ok (PInt 7));
                EvSet "k" (PInt 7) 60 (Raise StoreUnavailable)]).
    + reflexivity.
    + apply (set_raised "k" fallback_func 60 _ ()
               (with_outage_after 1 empty_state)
               (with_outage_after 0 empty_state) (PInt 7)
               (with_outage_after 0 empty_state)); reflexivity.
    + reflexivity.
Defined.

(** C3 as stated fails: the key is absent, the store goes down between
    [get] and [set], and the fallback has run twice by the time the call
    returns. *)
Lemma fallback_runs_twice_when_set_fails :
  let fallback_func : callable state := λ s, (Ok (PInt 7), s) in
  let s := with_outage_after 2 empty_state in
  absent_in_cache "k" s
  ∧ count_calls "fallback_func"
      (trace (run (safe_cache_get "k" fallback_func 60) s).2) = 2%nat
  ∧ ¬ fallback_once_and_returned "k" fallback_func 60 s.
Proof.
  intros fallback_func s. split; [|split].
  - exists (), (with_outage_after 1 empty_state),
      (with_outage_after 0 empty_state).
    split; reflexivity.
  - reflexivity.
  - unfold fallback_once_and_returned.
    destruct (run (safe_cache_get "k" fallback_func 60) s) as [r w] eqn:Hrun.
    intros [Hcount _].
    assert (Hw : w = (run (safe_cache_get "k" fallback_func 60) s).2)
      by (by rewrite Hrun).
    rewrite Hw in Hcount. vm_compute in Hcount. discriminate.
Qed.

Lemma safe_cache_get_fallback_once_witness :
  let fallback_func : callable state := λ s, (Ok (PInt 7), s) in
  let result := run (safe_cache_get "k" fallback_func 60) empty_state in
  result.1 = Ok (PInt 7)
  ∧ count_calls "fallback_func" (trace result.2) = 1%nat
  ∧ trace result.2
    = [EvGetCache (Ok ()); EvGet "k" (Ok PNone);
       EvCall "fallback_func" [] (Ok (PInt 7));
       EvSet "k" (PInt 7) 60 (Ok (PBool true))].
Proof.
  intros fallback_func.
  apply (safe_cache_get_fallback_once "k" fallback_func 60
           empty_state () empty_state empty_state (PInt 7) empty_state
           (PBool true) (with_entry_ttl "k" (PInt 7) 60 empty_state));
    reflexivity.
Defined.

Lemma refresh_cache_background_contains_failures_witness :
  let failing : callable state :=
    λ s, (Raise (Exn "TimeoutError" "database timed out" true), s) in
  let s := with_entry "k" (PInt 1) empty_state in
  let result := run (refresh_cache_background "k" failing 60) s in
  lets_no_error_out result.1
  ∧ result.1 = Ok ()
  ∧ ext result.2 = s
  ∧ entries (ext result.2) !! "bot_cache:k" = Some (PInt 1, 1800)
  ∧ Forall (λ ev, is_set ev = false) (trace result.2).
Proof.
  intros failing s result.
  destruct (refresh_cache_background_contains_failures "k" failing 60 s)
    as [Hout Hproducer].
  destruct (Hproducer () s (Exn "TimeoutError" "database timed out" true) s
              eq_refl eq_refl) as (Hext & Hsets & Hret).
  split; [exact Hout|]. split; [exact (Hret eq_refl)|].
  split; [exact Hext|]. split; [reflexivity|exact Hsets].
Defined.

(** C9 as stated fails: a client may answer [set] with a failure, the
    call ignores the answer and goes on to update the database, and by the
    time it returns 42 the cache still holds 41. *)
Lemma counter_cache_stale_when_set_reports_failure :
  let s := with_entry "user_counter:5:msgs" (PInt 41) empty_state in
  let result :=
    run (@increment_user_counter state () set_refused 5 "msgs") s in
  @honours_contract state () set_refused
  ∧ result.1 = Ok (PInt 42)
  ∧ writes (trace result.2)
    = [EvSet "user_counter:5:msgs" (PInt 42) 7200 (Ok (PBool false));
       EvCall "update_counter_in_db" [PInt 5; PStr "msgs"; PInt 42]
         (Ok PNone)]
  ∧ entries (ext result.2) !! "bot_cache:user_counter:5:msgs"
    = Some (PInt 41, 1800)
  ∧ db_counters (ext result.2) !! (5, "msgs") = Some (PInt 42)
  ∧ ¬ @counter_held state () set_refused () 5 "msgs" (PInt 42)
        (ext result.2).
Proof.
  intros s result. split; [apply set_refused_honours_contract|].
  repeat (split; [reflexivity|]).
  intros [Hcache _].
  specialize (Hcache (PInt 41) (ext result.2) eq_refl). discriminate.
Qed.

Lemma increment_user_counter_consistent_witness :
  let s := with_entry "user_counter:5:msgs" (PInt 41) empty_state in
  let w := (run (increment_user_counter 5 "msgs") s).2 in
  ∃ c prior n s3 r_set s4 r_db,
    counter_read 5 "msgs" s c prior s3
    ∧ as_int prior = Some n
    ∧ PInt 42 = PInt (n + 1)
    ∧ cache_set c "user_counter:5:msgs" (PInt 42) 7200 s3 = (Ok r_set, s4)
    ∧ update_counter_in_db 5 "msgs" (PInt 42) s4 = (Ok r_db, ext w)
    ∧ writes (trace w)
      = [EvSet "user_counter:5:msgs" (PInt 42) 7200 (Ok r_set);
         EvCall "update_counter_in_db" [PInt 5; PStr "msgs"; PInt 42]
           (Ok r_db)]
    ∧ (truthy r_set = true → counter_held c 5 "msgs" (PInt 42) (ext w)).
Proof.
  intros s w.
  apply (increment_user_counter_consistent 5 "msgs" s (PInt 42) w
           reference_honours_contract).
  reflexivity.
Defined.

(** On the reference client the two reads do answer after that call, and
    both with 42. *)
Example counter_held_sample :
  let s := with_entry "user_counter:5:msgs" (PInt 41) empty_state in
  let w := (run (increment_user_counter 5 "msgs") s).2 in
  (cache_get () "user_counter:5:msgs" (ext w)).1 = Ok (PInt 42)
  ∧ (get_counter_from_db 5 "msgs" (ext w)).1 = Ok (PInt 42).
Proof. split; reflexivity. Qed.

Lemma grouped_data_is_partition_witness :
  let users :=
    [PDict [(PStr "name", PStr "ann"); (PStr "status", PStr "active")];
     PDict [(PStr "name", PStr "bob")];
     PDict [(PStr "name", PStr "cid"); (PStr "status", PStr "active")]] in
  ∃ grouped_data,
    group_users (PList users) = Ok grouped_data
    ∧ NoDup (hash_key <$> grouped_data.*1)
    ∧ (∀ k v, (k, v) ∈ grouped_data →
         ∃ h, hash_key k = Some h
              ∧ members_of h users ≠ []
              ∧ v = PList (members_of h users))
    ∧ (∀ u, u ∈ users →
         ∃ k h, status_key u = Some h
                ∧ hash_key k = Some h
                ∧ (k, PList (members_of h users)) ∈ grouped_data
                ∧ u ∈ members_of h users)
    ∧ (∀ k members u, (k, PList members) ∈ grouped_data → u ∈ members →
         hash_key k = status_key u)
    ∧ total_grouped grouped_data = length users.
Proof.
  intros users. apply (grouped_data_is_partition users).
  repeat apply Forall_cons_2; [by eexists..|apply Forall_nil_2].
Defined.

(** The grouping at that input, spelled out. *)
Example group_users_sample :
  group_users
    (PList
       [PDict [(PStr "name", PStr "ann"); (PStr "status", PStr "active")];
        PDict [(PStr "name", PStr "bob")];
        PDict [(PStr "name", PStr "cid"); (PStr "status", PStr "active")]])
  = Ok [(PStr "active",
         PList [PDict [(PStr "name", PStr "ann");
                       (PStr "status", PStr "active")];
                PDict [(PStr "name", PStr "cid");
                       (PStr "status", PStr "active")]]);
        (PStr "unknown", PList [PDict [(PStr "name", PStr "bob")]])].
Proof. reflexivity. Qed.

(* ===================================================================== *)
(** ** Further properties of config/settings.py *)
(* ===================================================================== *)

Module settings_more.
Import settings.

(** *** [int()] undoes [str()] *)

Lemma scan_digits_uint d : ∀ acc n,
  scan_digits acc n false (list_ascii_of_string (NilEmpty.string_of_uint d))
  = Some (uint_fold acc d, n + Z.of_nat (Decimal.nb_digits d), []).
Proof.
  induction d; intros acc n; simpl scan_digits; simpl uint_fold;
    [by rewrite Z.add_0_r|..];
    rewrite IHd; do 3 f_equal; simpl Decimal.nb_digits; lia.
Qed.

Lemma of_uint_acc_fold d : ∀ acc,
  Z.pos (Pos.of_uint_acc d acc) = uint_fold (Z.pos acc) d.
Proof.
  induction d; intros acc; simpl; try done; rewrite IHd; f_equal; lia.
Qed.

Lemma of_uint_fold d : Z.of_N (Pos.of_uint d) = uint_fold 0 d.
Proof.
  induction d; simpl; try done; by rewrite of_uint_acc_fold.
Qed.

Lemma uint_chars_digits d :
  Forall digit_char (list_ascii_of_string (NilEmpty.string_of_uint d)).
Proof.
  induction d; simpl; constructor; try done; by eexists.
Qed.

Lemma to_uint_string p :
  NilZero.string_of_uint (Pos.to_uint p)
  = NilEmpty.string_of_uint (Pos.to_uint p).
Proof.
  pose proof (DecimalPos.Unsigned.to_uint_nonnil p).
  by destruct (Pos.to_uint p).
Qed.

Lemma uint_fold_to_uint p : uint_fold 0 (Pos.to_uint p) = Z.pos p.
Proof. by rewrite <- of_uint_fold, (DecimalPos.Unsigned.of_to p). Qed.

(** A digit sequence is worth at least its leading part shifted left. *)
Lemma uint_fold_lower d : ∀ acc,
  0 ≤ acc → acc * 10 ^ Z.of_nat (Decimal.nb_digits d) ≤ uint_fold acc d.
Proof.
  induction d; intros acc Hacc; simpl uint_fold;
    [simpl; lia|..];
    (etrans; [|apply IHd; lia]);
    change (Decimal.nb_digits (_ d)) with (Datatypes.S (Decimal.nb_digits d));
    rewrite Nat2Z.inj_succ, Z.pow_succ_r by lia;
    pose proof (Z.pow_nonneg 10 (Z.of_nat (Decimal.nb_digits d))); nia.
Qed.

(** The rendering of a positive number has no leading zero. *)
Lemma to_uint_head p d : Pos.to_uint p ≠ Decimal.D0 d.
Proof.
  intros Hd.
  pose proof (DecimalPos.Unsigned.to_of (Pos.to_uint p)) as Hn.
  rewrite (DecimalPos.Unsigned.of_to p) in Hn. simpl in Hn.
  rewrite Hd in Hn.
  assert (Hnil : d ≠ Decimal.Nil).
  { intros ->. by apply (DecimalPos.Unsigned.to_uint_nonzero p). }
  pose proof (DecimalFacts.nb_digits_unorm d Hnil) as Hle.
  change (Decimal.unorm (Decimal.D0 d)) with (Decimal.unorm d) in Hn.
  rewrite <- Hn in Hle. simpl in Hle. lia.
Qed.

(** A number below [10 ^ n] is written with at most [n] digits. *)
Lemma nb_digits_to_uint p n :
  0 ≤ n → Z.pos p < 10 ^ n →
  Z.of_nat (Decimal.nb_digits (Pos.to_uint p)) ≤ n.
Proof.
  intros Hn Hp. pose proof (uint_fold_to_uint p) as Hv.
  pose proof (to_uint_head p) as Hhead.
  pose proof (DecimalPos.Unsigned.to_uint_nonnil p) as Hnil.
  destruct (Z.le_gt_cases (Z.of_nat (Decimal.nb_digits (Pos.to_uint p))) n)
    as [|Hgt]; [done|exfalso].
  assert (Hpow : 10 ^ n ≤ Z.pos p); [|lia].
  destruct (Pos.to_uint p) as [|d|d|d|d|d|d|d|d|d|d]; [done|by destruct (Hhead d)|..];
    simpl uint_fold in Hv;
    change (Decimal.nb_digits (_ d)) with (Datatypes.S (Decimal.nb_digits d))
      in Hgt;
    rewrite Nat2Z.inj_succ in Hgt;
    (etrans; [apply (Z.pow_le_mono_r 10 n (Z.of_nat (Decimal.nb_digits d)));
              lia|]);
    rewrite <- Hv;
    (etrans; [|apply uint_fold_lower; lia]);
    pose proof (Z.pow_nonneg 10 (Z.of_nat (Decimal.nb_digits d))); nia.
Qed.

Lemma int_literal_uint (negative : bool) d :
  d ≠ Decimal.Nil →
  Z.of_nat (Decimal.nb_digits d) ≤ max_str_digits →
  int_literal ((if negative then ["-"%char] else [])
               ++ list_ascii_of_string (NilEmpty.string_of_uint d))
  = IntValue (if negative then - uint_fold 0 d else uint_fold 0 d).
Proof.
  intros Hnil Hlen.
  destruct d as [|d|d|d|d|d|d|d|d|d|d]; [done|..];
    change (Decimal.nb_digits (_ d)) with (Datatypes.S (Decimal.nb_digits d))
      in Hlen;
    rewrite Nat2Z.inj_succ in Hlen;
    destruct negative; unfold int_literal; simpl;
    rewrite scan_digits_uint;
    (destruct (Z.ltb_spec max_str_digits
                 (0 + 1 + Z.of_nat (Decimal.nb_digits d))) as [|_]; [lia|]);
    (destruct (Z.eqb_spec (0 + 1 + Z.of_nat (Decimal.nb_digits d)) 0)
       as [|_]; [lia|]);
    reflexivity.
Qed.

Lemma py_int_str_of_int (z : Z) :
  Z.abs z < 10 ^ max_str_digits → py_int (str_of_int z) = Ok z.
Proof.
  intros Hz. unfold py_int, str_of_int.
  assert (int_literal
            (list_ascii_of_string (NilZero.string_of_int (Z.to_int z)))
          = IntValue z) as ->; [|done].
  destruct z as [|p|p]; [done|..];
    unfold Z.to_int, NilZero.string_of_int; rewrite to_uint_string;
    pose proof (DecimalPos.Unsigned.to_uint_nonnil p) as Hnil;
    assert (Hlen : Z.of_nat (Decimal.nb_digits (Pos.to_uint p))
                   ≤ max_str_digits)
      by (apply nb_digits_to_uint; [done|exact Hz]).
  - pose proof (int_literal_uint false _ Hnil Hlen) as Hl.
    cbn [app] in Hl. by rewrite Hl, uint_fold_to_uint.
  - pose proof (int_literal_uint true _ Hnil Hlen) as Hl.
    cbn [app] in Hl. cbn [list_ascii_of_string].
    by rewrite Hl, uint_fold_to_uint.
Qed.

(** The limit on the number of digits, underscores and blanks, as the
    interpreter has them. *)
Example py_int_samples :
  py_int " -1_000 " = Ok (-1000)
  ∧ py_int "007" = Ok 7
  ∧ py_int "1__0"
    = Raise (ValueError "invalid literal for int() with base 10: '1__0'")
  ∧ py_int "it's"
    = Raise (ValueError
               ("invalid literal for int() with base 10: "
                +:+ String double_quote ("it's" +:+ String double_quote "")))
  ∧ is_Ok (py_int (string_of_list_ascii (replicate 4300 "9"%char))) = true
  ∧ py_int (string_of_list_ascii (replicate 4301 "9"%char))
    = Raise (ValueError
               ("Exceeds the limit (4300 digits) for integer string "
                +:+ "conversion: value has 4301 digits; use "
                +:+ "sys.set_int_max_str_digits() to increase the limit")).
Proof. vm_compute. repeat split. Qed.

(** The decimal rendering determines the number. *)
Lemma str_of_int_inj z1 z2 : str_of_int z1 = str_of_int z2 → z1 = z2.
Proof.
  set (value := λ s : string,
         match list_ascii_of_string s with
         | c :: r =>
             if Ascii.eqb c "-"
             then (λ x, - x.1.1) <$> scan_digits 0 0 false r
             else (λ x, x.1.1) <$> scan_digits 0 0 false (c :: r)
         | [] => None
         end).
  assert (Hvalue : ∀ z, value (str_of_int z) = Some z).
  { intros [|p|p]; [done|..]; unfold value, str_of_int, Z.to_int,
      NilZero.string_of_int; rewrite to_uint_string.
    - pose proof (uint_chars_digits (Pos.to_uint p)) as Hall.
      pose proof (DecimalPos.Unsigned.to_uint_nonnil p) as Hnil.
      destruct (list_ascii_of_string
                  (NilEmpty.string_of_uint (Pos.to_uint p)))
        as [|c r] eqn:Hl; [by destruct (Pos.to_uint p)|].
      apply Forall_cons in Hall as [[d Hd] _].
      destruct (Ascii.eqb_spec c "-") as [->|_]; [done|].
      rewrite <- Hl, scan_digits_uint. simpl. by rewrite uint_fold_to_uint.
    - cbn [list_ascii_of_string Ascii.eqb Bool.eqb].
      rewrite scan_digits_uint. simpl. by rewrite uint_fold_to_uint. }
  intros Heq. pose proof (Hvalue z1) as H1.
  rewrite Heq, Hvalue in H1. by injection H1.
Qed.

Lemma append_colon_inj (s1 s2 t1 t2 : string) :
  colon_free s1 → colon_free s2 →
  s1 +:+ ":" +:+ t1 = s2 +:+ ":" +:+ t2 → s1 = s2 ∧ t1 = t2.
Proof.
  unfold colon_free. revert s2.
  induction s1 as [|a s1 IH]; intros [|b s2] H1 H2 Heq; simpl in *.
  - by injection Heq.
  - injection Heq as <- _. destruct H2. left.
  - injection Heq as -> _. destruct H1. left.
  - injection Heq as -> Heq.
    apply not_elem_of_cons in H1 as [_ H1], H2 as [_ H2].
    destruct (IH s2 H1 H2 Heq) as [-> ->]. done.
Qed.

Lemma digit_not_colon c : digit_char c → c ≠ ":"%char.
Proof. intros [z Hz] ->. discriminate. Qed.

Lemma str_of_int_colon_free z : colon_free (str_of_int z).
Proof.
  unfold colon_free, str_of_int.
  assert (Hu : ∀ d, ":"%char ∉ list_ascii_of_string (NilEmpty.string_of_uint d)).
  { intros d Hin. pose proof (uint_chars_digits d) as Hall.
    rewrite Forall_forall in Hall. by apply (digit_not_colon _ (Hall _ Hin)). }
  destruct z as [|p|p]; simpl.
  - by intros [?|?%elem_of_nil]%elem_of_cons.
  - assert (NilZero.string_of_uint (Pos.to_uint p)
            = NilEmpty.string_of_uint (Pos.to_uint p)) as ->; [|apply Hu].
    pose proof (DecimalPos.Unsigned.to_uint_nonnil p). by destruct (Pos.to_uint p).
  - assert (NilZero.string_of_uint (Pos.to_uint p)
            = NilEmpty.string_of_uint (Pos.to_uint p)) as ->.
    { pose proof (DecimalPos.Unsigned.to_uint_nonnil p).
      by destruct (Pos.to_uint p). }
    intros [?|?]%elem_of_cons; [done|]. by apply (Hu (Pos.to_uint p)).
Qed.

(** X1. The numeric settings survive the trip through the environment:
    with [REDIS_PORT], [REDIS_DB] and [CACHE_TTL] set to the decimal
    renderings of three integers of at most 4300 digits, the import
    succeeds and the attributes are those integers, negative ones
    included. *)
Theorem numeric_settings_round_trip (env : environ) (port db ttl : Z) :
  Z.abs port < 10 ^ max_str_digits →
  Z.abs db < 10 ^ max_str_digits →
  Z.abs ttl < 10 ^ max_str_digits →
  env !! "REDIS_PORT" = Some (str_of_int port) →
  env !! "REDIS_DB" = Some (str_of_int db) →
  env !! "CACHE_TTL" = Some (str_of_int ttl) →
  ∃ m, (import_module env).1 = Ok m
       ∧ REDIS_PORT (redis m) = port
       ∧ REDIS_DB (redis m) = db
       ∧ CACHE_TTL (redis m) = ttl.
Proof.
  intros Hport Hdb Httl Hp Hd Ht.
  unfold import_module, settings_body, RedisConfig_body, bind, os_getenv,
    os_getenv_opt, of_outcome, ret. simpl.
  rewrite Hp, Hd, Ht. simpl.
  rewrite !py_int_str_of_int by done.
  by eexists.
Qed.

(** X2. The module depends on thirteen variables only: setting any other
    one, [PAY_TOKEN] for instance, changes nothing of what the import
    yields. *)
Theorem import_ignores_other_variables (env : environ) (name value : string) :
  name ∉ module_reads →
  import_module (<[name := value]> env) = import_module env.
Proof.
  intros Hname.
  unfold import_module, settings_body, RedisConfig_body, bind, os_getenv,
    os_getenv_opt, of_outcome, ret. simpl.
  assert (Hl : ∀ n, n ∈ module_reads → <[name := value]> env !! n = env !! n).
  { intros n Hn. apply lookup_insert_ne. by intros ->. }
  rewrite !Hl; [done|unfold module_reads; set_solver..].
Qed.

(** X3. A numeric variable that [int()] rejects (values of ASCII text)
    aborts the import at that line with the [ValueError]: no settings
    object exists, and the variables after it are never read.  The import
    succeeds exactly when the three numeric values are accepted. *)
Theorem malformed_number_aborts_import (env : environ) (e : exn) :
  let port_s := default "6379" (env !! "REDIS_PORT") in
  let db_s := default "0" (env !! "REDIS_DB") in
  let ttl_s := default "3600" (env !! "CACHE_TTL") in
  (ascii_text port_s → py_int port_s = Raise e →
   import_module env
   = (Raise e, ["BOT_TOKEN"; "TECH_SUPPORT"; "BOT_NAME"; "BOT_USERNAME";
                "PAYMENT_TOKEN"; "SHOP_ID"; "REDIS_HOST"; "REDIS_PORT"]))
  ∧ (ascii_text port_s → ascii_text db_s →
     is_Ok (py_int port_s) = true → py_int db_s = Raise e →
     import_module env
     = (Raise e, ["BOT_TOKEN"; "TECH_SUPPORT"; "BOT_NAME"; "BOT_USERNAME";
                  "PAYMENT_TOKEN"; "SHOP_ID"; "REDIS_HOST"; "REDIS_PORT";
                  "REDIS_DB"]))
  ∧ (ascii_text port_s → ascii_text db_s → ascii_text ttl_s →
     is_Ok (import_module env).1
     = (is_Ok (py_int port_s) && is_Ok (py_int db_s)
        && is_Ok (py_int ttl_s))%bool).
Proof.
  intros port_s db_s ttl_s. subst port_s db_s ttl_s.
  unfold import_module, settings_body, RedisConfig_body, bind, os_getenv,
    os_getenv_opt, of_outcome, ret. simpl.
  split; [|split].
  - by intros _ ->.
  - intros _ _.
    destruct (py_int (default "6379" (env !! "REDIS_PORT"))); [|done].
    by intros _ ->.
  - intros _ _ _.
    destruct (py_int (default "6379" (env !! "REDIS_PORT"))); [|done].
    destruct (py_int (default "0" (env !! "REDIS_DB"))); [|done].
    by destruct (py_int (default "3600" (env !! "CACHE_TTL"))).
Qed.

(** X4. What the connection URL is, read from the environment: a
    non-empty [REDIS_URL] is returned as it stands whatever else is set;
    with none of the five connection variables set it is
    [redis://localhost:6379/0]. *)
Theorem connection_url_from_environment (env : environ) (m : settings_py) :
  (import_module env).1 = Ok m →
  (∀ url, env !! "REDIS_URL" = Some url → url ≠ "" →
     get_redis_url (redis m) = url)
  ∧ (env !! "REDIS_URL" = None → env !! "REDIS_PASSWORD" = None →
     env !! "REDIS_HOST" = None → env !! "REDIS_PORT" = None →
     env !! "REDIS_DB" = None →
     get_redis_url (redis m) = "redis://localhost:6379/0").
Proof.
  unfold import_module, settings_body, RedisConfig_body, bind, os_getenv,
    os_getenv_opt, of_outcome, ret. simpl.
  destruct (py_int (default "6379" (env !! "REDIS_PORT"))) as [port|] eqn:Hp;
    [|done].
  destruct (py_int (default "0" (env !! "REDIS_DB"))) as [db|] eqn:Hd;
    [|done].
  destruct (py_int (default "3600" (env !! "CACHE_TTL"))) as [ttl|]; [|done].
  simpl. intros [= <-]. unfold get_redis_url. simpl. split.
  - intros url -> Hurl. simpl.
    by destruct (String.eqb_spec url "").
  - intros Hu Hpw Hh Hport Hdb. rewrite Hu, Hpw, Hh. simpl.
    rewrite Hport in Hp. rewrite Hdb in Hd.
    injection Hp as <-. by injection Hd as <-.
Qed.

Lemma numeric_settings_round_trip_witness :
  ∃ m, (import_module
          (<["REDIS_PORT" := "6380"]>
             (<["REDIS_DB" := "2"]> (<["CACHE_TTL" := "-5"]> ∅)))).1 = Ok m
       ∧ REDIS_PORT (redis m) = 6380
       ∧ REDIS_DB (redis m) = 2
       ∧ CACHE_TTL (redis m) = -5.
Proof.
  apply (numeric_settings_round_trip
           (<["REDIS_PORT" := "6380"]>
              (<["REDIS_DB" := "2"]> (<["CACHE_TTL" := "-5"]> ∅)))
           6380 2 (-5)); (vm_compute; reflexivity).
Defined.

Lemma import_ignores_other_variables_witness :
  import_module (<["PAY_TOKEN" := "live_123"]> ∅) = import_module ∅.
Proof.
  apply (import_ignores_other_variables ∅ "PAY_TOKEN" "live_123").
  vm_compute. intros H. by repeat (inversion H as [|? ? ? H']; clear H; rename H' into H).
Defined.

Lemma malformed_number_aborts_import_witness :
  import_module (<["REDIS_PORT" := "63 79"]> ∅)
  = (Raise (ValueError "invalid literal for int() with base 10: '63 79'"),
     ["BOT_TOKEN"; "TECH_SUPPORT"; "BOT_NAME"; "BOT_USERNAME";
      "PAYMENT_TOKEN"; "SHOP_ID"; "REDIS_HOST"; "REDIS_PORT"]).
Proof.
  apply (proj1 (malformed_number_aborts_import
                  (<["REDIS_PORT" := "63 79"]> ∅)
                  (ValueError
                     "invalid literal for int() with base 10: '63 79'")));
    reflexivity.
Defined.

Lemma connection_url_from_environment_witness :
  get_redis_url
    (Build_RedisConfig "db.internal" 6379 0 "" "rediss://cache:6380/1" 3600
       "bot_cache:")
  = "rediss://cache:6380/1".
Proof.
  destruct (connection_url_from_environment
              (<["REDIS_URL" := "rediss://cache:6380/1"]>
                 (<["REDIS_HOST" := "db.internal"]> ∅))
              (Build_settings_py (Build_GetTokenBot None)
                 (Build_GetTechSupport None) (Build_GetBotName None None)
                 (Build_YooKassaInfo None None)
                 (Build_RedisConfig "db.internal" 6379 0 ""
                    "rediss://cache:6380/1" 3600 "bot_cache:")))
    as [Hurl _]; [reflexivity|].
  apply (Hurl "rediss://cache:6380/1"); [reflexivity|discriminate].
Defined.

End settings_more.

(* ===================================================================== *)
(** ** Further properties of examples/cache_integration_examples.py *)
(* ===================================================================== *)

(** Membership of an event in a log that is a literal list. *)
Ltac in_trace H :=
  repeat (apply elem_of_cons in H as [H|H]; [try discriminate|]);
  try (by apply elem_of_nil in H).

(** *** The runs along the paths that succeed *)

Section runs.

Context {S Cache : Type} `{!Collaborators S Cache}.

Lemma safe_cache_get_hit
    (key : string) (fallback_func : callable S) (ttl : Z)
    (s : S) (c : Cache) (s1 : S) (cached : pyval) (s2 : S) :
  get_cache s = (Ok c, s1) →
  cache_get c key s1 = (Ok cached, s2) →
  cached ≠ PNone →
  run (safe_cache_get key fallback_func ttl) s
    = (Ok cached, World s2 [EvGetCache (Ok ()); EvGet key (Ok cached)] []).
Proof.
  intros Hc Hg Hn. unfold safe_cache_get. unfold_m. step_calls.
  by destruct cached.
Qed.


Lemma safe_cache_get_miss
    (key : string) (fallback_func : callable S) (ttl : Z)
    (s : S) (c : Cache) (s1 s2 : S) (data : pyval) (s3 : S)
    (r : pyval) (s4 : S) :
  get_cache s = (Ok c, s1) →
  cache_get c key s1 = (Ok PNone, s2) →
  fallback_func s2 = (Ok data, s3) →
  cache_set c key data ttl s3 = (Ok r, s4) →
  run (safe_cache_get key fallback_func ttl) s
  = (Ok data,
     World s4 [EvGetCache (Ok ()); EvGet key (Ok PNone);
               EvCall "fallback_func" [] (Ok data);
               EvSet key data ttl (Ok r)] []).
Proof.
  intros Hc Hg Hf Hs. unfold safe_cache_get. unfold_m. by step_calls.
Qed.
Lemma increment_user_counter_run
    (user_id : Z) (counter_type : string) (s : S) (c : Cache) (s1 : S)
    (cached : pyval) (s2 : S) (prior : pyval) (s3 : S) (n : Z)
    (r_set : pyval) (s4 : S) (r_db : pyval) (s5 : S) :
  let key :=
    "user_counter:" +:+ str_of_int user_id +:+ ":" +:+ counter_type in
  get_cache s = (Ok c, s1) →
  cache_get c key s1 = (Ok cached, s2) →
  (if is_None cached
   then get_counter_from_db user_id counter_type s2 = (Ok prior, s3)
   else prior = cached ∧ s3 = s2) →
  as_int prior = Some n →
  cache_set c key (PInt (n + 1)) 7200 s3 = (Ok r_set, s4) →
  update_counter_in_db user_id counter_type (PInt (n + 1)) s4
    = (Ok r_db, s5) →
  run (increment_user_counter user_id counter_type) s
  = (Ok (PInt (n + 1)),
     World s5
       ([EvGetCache (Ok ()); EvGet key (Ok cached)]
        ++ (if is_None cached
            then [EvCall "get_counter_from_db"
                    [PInt user_id; PStr counter_type] (Ok prior)]
            else [])
        ++ [EvSet key (PInt (n + 1)) 7200 (Ok r_set);
            EvCall "update_counter_in_db"
              [PInt user_id; PStr counter_type; PInt (n + 1)] (Ok r_db)])
       []).
Proof.
  intros key Hc Hg Hprior Hn Hs Hu. subst key.
  assert (Hadd : py_add_one prior = Ok (PInt (n + 1))).
  { destruct prior; try done; simpl in *; by injection Hn as <-. }
  unfold increment_user_counter. unfold_m. step_calls.
  destruct (is_None cached); simpl in *.
  - step_calls. rewrite Hadd. simpl. by step_calls.
  - destruct Hprior as [-> ->]. rewrite Hadd. simpl. by step_calls.
Qed.

Lemma refresh_cache_background_run
    (key : string) (fetch_func : callable S) (ttl : Z) (s : S)
    (c : Cache) (s1 : S) (new_data : pyval) (s2 : S) (r : pyval) (s3 : S) :
  get_cache s = (Ok c, s1) →
  fetch_func s1 = (Ok new_data, s2) →
  cache_set c key new_data ttl s2 = (Ok r, s3) →
  run (refresh_cache_background key fetch_func ttl) s
  = (Ok (),
     World s3 [EvGetCache (Ok ()); EvCall "fetch_func" [] (Ok new_data);
               EvSet key new_data ttl (Ok r);
               EvPrint ("Кеш " +:+ key +:+ " обновлен в фоне")] []).
Proof.
  intros Hc Hf Hs. unfold refresh_cache_background. unfold_m. by step_calls.
Qed.

Lemma cache_user_session_data_run
    (user_id : Z) (session_data : pydict) (s : S) (c : Cache) (s1 : S)
    (r1 : pyval) (s2 : S) (r2 : pyval) (s3 : S) :
  let user_info :=
    default PNone (dict_lookup (HStr "user_info") session_data) in
  get_cache s = (Ok c, s1) →
  cache_set c ("user_session:" +:+ str_of_int user_id) (PDict session_data)
    300 s1 = (Ok r1, s2) →
  cache_set c ("user_data:" +:+ str_of_int user_id) user_info 3600 s2
    = (Ok r2, s3) →
  run (cache_user_session_data user_id (PDict session_data)) s
  = (Ok (PBool true),
     World s3
       [EvGetCache (Ok ());
        EvSet ("user_session:" +:+ str_of_int user_id) (PDict session_data)
          300 (Ok r1);
        EvSet ("user_data:" +:+ str_of_int user_id) user_info 3600 (Ok r2)]
       []).
Proof.
  intros user_info Hc Hs1 Hs2. unfold cache_user_session_data. unfold_m.
  step_calls. subst user_info. by step_calls.
Qed.


Lemma get_priority_data_hit (data_type priority : string) (s : S)
    (c : Cache) (s1 : S) (cached : pyval) (s2 : S) :
  get_cache s = (Ok c, s1) →
  cache_get c ("priority_data:" +:+ data_type +:+ ":" +:+ priority) s1
    = (Ok cached, s2) →
  truthy cached = true →
  run (get_priority_data data_type priority) s
    = (Ok cached,
       World s2 [EvGetCache (Ok ());
                 EvGet ("priority_data:" +:+ data_type +:+ ":" +:+ priority)
                   (Ok cached)] []).
Proof.
  intros Hc Hg Ht. unfold get_priority_data. unfold_m. step_calls.
  by rewrite Ht.
Qed.

End runs.

Section reference_runs.
Import store_model.

Lemma reference_get_cache s :
  reachable_for s = None → get_cache s = (Ok (), s).
Proof. intros H. simpl. unfold round_trip. by rewrite H. Qed.

Lemma reference_get key s :
  reachable_for s = None →
  cache_get () key s
  = (Ok (default PNone (fst <$> entries s !! (prefix s +:+ key))), s).
Proof. intros H. simpl. unfold client_get, bind, round_trip. by rewrite H. Qed.

Lemma reference_set key v ttl s :
  reachable_for s = None → 0 < ttl →
  cache_set () key v ttl s = (Ok (PBool true), with_entry_ttl key v ttl s).
Proof.
  intros H Httl. simpl. unfold client_set, bind, round_trip. rewrite H.
  by destruct (Z.ltb_spec 0 ttl) as [_|]; [|lia].
Qed.

Lemma reference_get_after_set key v ttl s :
  reachable_for s = None →
  cache_get () key (with_entry_ttl key v ttl s)
  = (Ok v, with_entry_ttl key v ttl s).
Proof.
  intros H. rewrite reference_get by done. simpl.
  by rewrite lookup_insert_eq.
Qed.


Lemma is_None_true v : is_None v = true → v = PNone.
Proof. by destruct v. Qed.

Lemma is_None_false v : is_None v = false → v ≠ PNone.
Proof. by destruct v. Qed.

End reference_runs.

(** *** Read paths *)

Section read_paths.

Context {S Cache : Type} `{!Collaborators S Cache}.

(** X5. [safe_cache_get] tests [is not None]: whatever the entry holds
    other than [None], an empty dictionary or [0] included, is returned
    after the one [get], with no fallback call and no write. *)
Theorem safe_cache_get_serves_any_entry
    (key : string) (fallback_func : callable S) (ttl : Z)
    (s : S) (c : Cache) (s1 : S) (cached : pyval) (s2 : S) :
  get_cache s = (Ok c, s1) →
  cache_get c key s1 = (Ok cached, s2) →
  cached ≠ PNone →
  let result := run (safe_cache_get key fallback_func ttl) s in
  result.1 = Ok cached
  ∧ trace result.2 = [EvGetCache (Ok ()); EvGet key (Ok cached)]
  ∧ ext result.2 = s2
  ∧ count_calls "fallback_func" (trace result.2) = 0%nat.
Proof.
  intros Hc Hg Hn result. subst result.
  by rewrite (safe_cache_get_hit key fallback_func ttl s c s1 cached s2).
Qed.

(** X6. The [try] of [safe_cache_get] also covers the fallback: when the
    fallback raises an error on a miss, the error is printed as a caching
    error and dropped, the fallback is awaited a second time, and the call
    ends as that second invocation does.  Nothing is written. *)
Theorem safe_cache_get_retries_failed_fallback
    (key : string) (fallback_func : callable S) (ttl : Z)
    (s : S) (c : Cache) (s1 s2 : S) (e : exn) (s3 : S) :
  get_cache s = (Ok c, s1) →
  cache_get c key s1 = (Ok PNone, s2) →
  fallback_func s2 = (Raise e, s3) →
  exn_is_Exception e = true →
  run (safe_cache_get key fallback_func ttl) s
    = ((fallback_func s3).1,
       World (fallback_func s3).2
         [EvGetCache (Ok ()); EvGet key (Ok PNone);
          EvCall "fallback_func" [] (Raise e);
          EvPrint ("Ошибка кеширования: " +:+ exn_text e);
          EvCall "fallback_func" [] (fallback_func s3).1] []).
Proof.
  intros Hc Hg Hf He. unfold safe_cache_get. unfold_m. step_calls.
  rewrite He. simpl. by destruct (fallback_func s3).
Qed.


(** X7. Where the result of [safe_cache_get] comes from, whatever the
    collaborators do: a returned value is the entry just read or a value
    the fallback returned, and an error that leaves the call was raised by
    the last fallback invocation, never by the cache. *)
Theorem safe_cache_get_provenance
    (key : string) (fallback_func : callable S) (ttl : Z) (s : S) :
  let result := run (safe_cache_get key fallback_func ttl) s in
  match result.1 with
  | Ok v =>
      (v ≠ PNone ∧ last (trace result.2) = Some (EvGet key (Ok v)))
      ∨ EvCall "fallback_func" [] (Ok v) ∈ trace result.2
  | Raise e =>
      exn_is_Exception e = true →
      last (trace result.2) = Some (EvCall "fallback_func" [] (Raise e))
  end.
Proof.
  unfold safe_cache_get. unfold_m. run_cases; try done;
    try (by left); try (right; set_solver); intros; congruence.
Qed.


(** X12. [get_auto_refresh_data] schedules nothing and awaits the producer
    at most once; whenever it returns a value, the entry it read was falsy
    or absent, and the value is the producer's, written under the key with
    the caller's TTL before the call returned. *)
Theorem get_auto_refresh_data_only_returns_fetched
    (key : string) (fetch_func : callable S) (ttl : Z) (s : S) :
  let result := run (get_auto_refresh_data key fetch_func ttl) s in
  tasks result.2 = []
  ∧ (count_calls "fetch_func" (trace result.2) ≤ 1)%nat
  ∧ ∀ v, result.1 = Ok v →
      ∃ cached r,
        truthy cached = false
        ∧ trace result.2
          = [EvGetCache (Ok ()); EvGet key (Ok cached);
             EvCall "fetch_func" [] (Ok v); EvSet key v ttl (Ok r)].
Proof.
  unfold get_auto_refresh_data. unfold_m. run_cases;
    (split; [done|]); (split; [done || (unfold count_calls; simpl; lia)|]);
    intros v [= <-]; eauto.
Qed.


(** X13. Every write of [get_priority_data] is on the key built from both
    arguments, carries the TTL of the priority and stores what the database
    returned, whatever that is.  The TTL is 300, 1800 or 7200, and 1800 for
    every priority other than [high] and [low]. *)
Theorem get_priority_data_writes (data_type priority : string) (s : S) :
  let result := run (get_priority_data data_type priority) s in
  (∀ i k v ttl r,
     trace result.2 !! i = Some (EvSet k v ttl r) →
     k = "priority_data:" +:+ data_type +:+ ":" +:+ priority
     ∧ ttl = ttl_map_get priority
     ∧ trace result.2 !! 2%nat
       = Some (EvCall "fetch_data_from_db" [PStr data_type] (Ok v)))
  ∧ ttl_map_get priority ∈ [300; 1800; 7200]
  ∧ (priority ≠ "high" → priority ≠ "low" → ttl_map_get priority = 1800).
Proof.
  split; [|split].
  - unfold get_priority_data. unfold_m. run_cases;
      intros i k v ttl r Hi;
      repeat (destruct i as [|i]; simpl in Hi; try discriminate);
      by injection Hi as <- <- <- <-.
  - unfold ttl_map_get. repeat case_match; set_solver.
  - unfold ttl_map_get. intros Hh Hl.
    destruct (String.eqb_spec priority "high"); [done|].
    destruct (String.eqb_spec priority "normal"); [done|].
    by destruct (String.eqb_spec priority "low").
Qed.


(** X16. [get_user_data_with_conditional_cache] writes under the user's key
    only, with TTL 1800, and only a record fetched in this call whose
    [is_active] field is truthy: inactive users are never cached. *)
Theorem only_active_users_are_cached (msg : message) (s : S) :
  let result := run (get_user_data_with_conditional_cache msg) s in
  let key := "user_data:" +:+ str_of_int (id (from_user msg)) in
  ∀ i k v ttl r,
    trace result.2 !! i = Some (EvSet k v ttl r) →
    k = key ∧ ttl = 1800
    ∧ trace result.2 !! 2%nat
      = Some (EvCall "fetch_user_data_from_db"
                [PInt (id (from_user msg))] (Ok v))
    ∧ ∃ active, py_get v (PStr "is_active") PNone = Ok active
                ∧ truthy active = true.
Proof.
  unfold get_user_data_with_conditional_cache. unfold_m.
  run_cases;
    repeat match goal with
    | |- context [py_get ?v ?k ?d] =>
        let Hp := fresh "Hp" in destruct (py_get v k d) eqn:Hp; simpl
    end; run_cases;
    intros i k v ttl r Hi;
    repeat (destruct i as [|i]; simpl in Hi; try discriminate);
    injection Hi as <- <- <- <-; eauto 10.
Qed.


(** X17. When the database answers a miss with something that is no
    dictionary, [None] for an unknown user, the call raises
    [AttributeError] at [user_data.get] and nothing is written. *)
Theorem unknown_user_raises (msg : message) (s : S) (c : Cache) (s1 : S)
    (cached : pyval) (s2 : S) (user_data : pyval) (s3 : S) :
  get_cache s = (Ok c, s1) →
  cache_get c ("user_data:" +:+ str_of_int (id (from_user msg))) s1
    = (Ok cached, s2) →
  truthy cached = false →
  fetch_user_data_from_db (id (from_user msg)) s2 = (Ok user_data, s3) →
  (∀ d, user_data ≠ PDict d) →
  run (get_user_data_with_conditional_cache msg) s
    = (Raise (AttributeError (type_name user_data) "get"),
       World s3
         [EvGetCache (Ok ());
          EvGet ("user_data:" +:+ str_of_int (id (from_user msg))) (Ok cached);
          EvCall "fetch_user_data_from_db" [PInt (id (from_user msg))]
            (Ok user_data)] []).
Proof.
  intros Hc Hg Ht Hf Hd. unfold get_user_data_with_conditional_cache.
  unfold_m. step_calls. rewrite Ht. simpl. step_calls.
  destruct user_data; try done. by destruct (Hd d).
Qed.

(** X28. A hit on a truthy entry in the three truth-tested read paths: the
    cached value is returned after the one [get]; the database is not asked
    and nothing is written, so the entry's TTL is not renewed. *)
Theorem truthy_hit_is_served (s : S) (c : Cache) (s1 : S) (cached : pyval)
    (s2 : S) :
  get_cache s = (Ok c, s1) →
  truthy cached = true →
  (∀ msg,
     cache_get c ("user_data:" +:+ str_of_int (id (from_user msg))) s1
       = (Ok cached, s2) →
     run (get_user_data_with_conditional_cache msg) s
     = (Ok cached,
        World s2
          [EvGetCache (Ok ());
           EvGet ("user_data:" +:+ str_of_int (id (from_user msg)))
             (Ok cached)] []))
  ∧ (∀ data_type priority,
       cache_get c ("priority_data:" +:+ data_type +:+ ":" +:+ priority) s1
         = (Ok cached, s2) →
       run (get_priority_data data_type priority) s
       = (Ok cached,
          World s2
            [EvGetCache (Ok ());
             EvGet ("priority_data:" +:+ data_type +:+ ":" +:+ priority)
               (Ok cached)] []))
  ∧ (∀ group_id,
       cache_get c ("grouped_users:" +:+ group_id) s1 = (Ok cached, s2) →
       run (get_grouped_user_data group_id) s
       = (Ok cached,
          World s2 [EvGetCache (Ok ());
                    EvGet ("grouped_users:" +:+ group_id) (Ok cached)] [])).
Proof.
  intros Hc Ht. split; [|split].
  - intros msg Hg.
    by apply (get_user_data_with_conditional_cache_hit msg s c s1 cached s2).
  - intros data_type priority Hg.
    by apply (get_priority_data_hit data_type priority s c s1 cached s2).
  - intros group_id Hg.
    by apply (get_grouped_user_data_hit group_id s c s1 cached s2).
Qed.

End read_paths.

(** *** Write paths *)

Section write_paths.

Context {S Cache : Type} `{!Collaborators S Cache}.

(** X10. The steps of [refresh_cache_background]: without a client the
    producer is not awaited at all; with both succeeding the new value is
    written once under the key with the given TTL and the success line is
    printed; a failing write is printed and dropped, the value computed is
    lost, and the call still returns. *)
Theorem refresh_cache_background_steps
    (key : string) (fetch_func : callable S) (ttl : Z) (s : S) :
  let result := run (refresh_cache_background key fetch_func ttl) s in
  (∀ e s1, get_cache s = (Raise e, s1) → exn_is_Exception e = true →
     result.1 = Ok ()
     ∧ count_calls "fetch_func" (trace result.2) = 0%nat
     ∧ ext result.2 = s1)
  ∧ (∀ c s1 new_data s2 r s3,
       get_cache s = (Ok c, s1) →
       fetch_func s1 = (Ok new_data, s2) →
       cache_set c key new_data ttl s2 = (Ok r, s3) →
       result
       = (Ok (),
          World s3 [EvGetCache (Ok ()); EvCall "fetch_func" [] (Ok new_data);
                    EvSet key new_data ttl (Ok r);
                    EvPrint ("Кеш " +:+ key +:+ " обновлен в фоне")] []))
  ∧ (∀ c s1 new_data s2 e s3,
       get_cache s = (Ok c, s1) →
       fetch_func s1 = (Ok new_data, s2) →
       cache_set c key new_data ttl s2 = (Raise e, s3) →
       exn_is_Exception e = true →
       result
       = (Ok (),
          World s3 [EvGetCache (Ok ()); EvCall "fetch_func" [] (Ok new_data);
                    EvSet key new_data ttl (Raise e);
                    EvPrint ("Ошибка при фоновом обновлении кеша " +:+ key
                             +:+ ": " +:+ exn_text e)] [])).
Proof.
  unfold refresh_cache_background. unfold_m. split; [|split].
  - intros e s1 Hc He. step_calls. by rewrite He.
  - intros c s1 d s2 r s3 Hc Hf Hs. by step_calls.
  - intros c s1 d s2 e s3 Hc Hf Hs He. step_calls. by rewrite He.
Qed.




(** X19. A prior value that is no number, a string from the store or
    [None] from the database, makes [increment_user_counter] raise
    [TypeError] before anything is written. *)
Theorem increment_user_counter_needs_a_number
    (user_id : Z) (counter_type : string) (s : S) (prior : pyval) :
  counter_prior user_id counter_type s prior →
  as_int prior = None →
  let result := run (increment_user_counter user_id counter_type) s in
  (∃ text, result.1 = Raise (TypeError text))
  ∧ writes (trace result.2) = [].
Proof.
  intros (c & s1 & cached & s2 & Hc & Hg & Hprior) Hn.
  unfold increment_user_counter. unfold_m. step_calls.
  destruct (is_None cached) eqn:Hnone; simpl.
  - destruct Hprior as [s3 Hdb]. step_calls.
    destruct prior; try done; simpl; eauto.
  - subst. destruct cached; try done; simpl; eauto.
Qed.




(** X24. A session that is no dictionary is written all the same: the
    first [set] stores it under [user_session:<id>], and only then does
    [session_data.get] raise [AttributeError]; the second write never
    happens. *)
Theorem cache_user_session_data_partial_write
    (user_id : Z) (session_data : pyval) (s : S) (c : Cache) (s1 : S)
    (r : pyval) (s2 : S) :
  get_cache s = (Ok c, s1) →
  cache_set c ("user_session:" +:+ str_of_int user_id) session_data 300 s1
    = (Ok r, s2) →
  (∀ d, session_data ≠ PDict d) →
  run (cache_user_session_data user_id session_data) s
    = (Raise (AttributeError (type_name session_data) "get"),
       World s2
         [EvGetCache (Ok ());
          EvSet ("user_session:" +:+ str_of_int user_id) session_data 300
            (Ok r)] []).
Proof.
  intros Hc Hs Hd. unfold cache_user_session_data. unfold_m. step_calls.
  destruct session_data; try done. by destruct (Hd d).
Qed.


(** X26. A call of [cache_with_metadata] that returns has made one write,
    with TTL 3600, of a dictionary with the four keys [data], [metadata],
    [cached_at], [version] in this order: [data] is the argument as given,
    [metadata] is the argument or [{}] when it is falsy, and [cached_at] is
    the fixed text of the source, not the time of the call. *)
Theorem cache_with_metadata_envelope
    (key : string) (data metadata : pyval) (s : S) (v : pyval) :
  let result := run (cache_with_metadata key data metadata) s in
  result.1 = Ok v →
  v = PBool true
  ∧ ∃ (envelope : pydict) r,
      trace result.2
      = [EvGetCache (Ok ()); EvSet key (PDict envelope) 3600 (Ok r)]
      ∧ envelope.*1
        = [PStr "data"; PStr "metadata"; PStr "cached_at"; PStr "version"]
      ∧ py_get (PDict envelope) (PStr "data") PNone = Ok data
      ∧ py_get (PDict envelope) (PStr "metadata") PNone
        = Ok (py_or metadata (PDict []))
      ∧ py_get (PDict envelope) (PStr "cached_at") PNone
        = Ok (PStr "2024-01-01T00:00:00Z").
Proof.
  unfold cache_with_metadata. unfold_m. run_cases; intros [= <-];
    (split; [done|]); eexists _, _;
    (split; [reflexivity|]); (split; [reflexivity|]);
    (split; [reflexivity|]); (split; reflexivity).
Qed.


End write_paths.

(** *** Cache keys *)

Section keys.

Context {S Cache : Type} `{!Collaborators S Cache}.

Lemma increment_user_counter_reads (user_id : Z) (counter_type : string)
    (s : S) (k : string) (r : outcome pyval) :
  EvGet k r ∈ trace (run (increment_user_counter user_id counter_type) s).2 →
  k = "user_counter:" +:+ str_of_int user_id +:+ ":" +:+ counter_type.
Proof.
  unfold increment_user_counter. unfold_m. run_cases; intros Hin;
    in_trace Hin; by injection Hin as -> _.
Qed.

Lemma get_priority_data_reads (data_type priority : string) (s : S)
    (k : string) (r : outcome pyval) :
  EvGet k r ∈ trace (run (get_priority_data data_type priority) s).2 →
  k = "priority_data:" +:+ data_type +:+ ":" +:+ priority.
Proof.
  unfold get_priority_data. unfold_m. run_cases; intros Hin;
    in_trace Hin; by injection Hin as -> _.
Qed.

(** X15. Counter keys never collide: two calls of
    [increment_user_counter], in whatever states, that read the same cache
    key were made for the same user and the same counter. *)
Theorem counter_keys_separate_users
    (user_id1 user_id2 : Z) (counter_type1 counter_type2 : string)
    (s1 s2 : S) (k : string) (r1 r2 : outcome pyval) :
  EvGet k r1
    ∈ trace (run (increment_user_counter user_id1 counter_type1) s1).2 →
  EvGet k r2
    ∈ trace (run (increment_user_counter user_id2 counter_type2) s2).2 →
  user_id1 = user_id2 ∧ counter_type1 = counter_type2.
Proof.
  intros H1%increment_user_counter_reads H2%increment_user_counter_reads.
  rewrite H1 in H2. apply (inj (String.app "user_counter:")) in H2.
  destruct (settings_more.append_colon_inj _ _ _ _
              (settings_more.str_of_int_colon_free user_id1)
              (settings_more.str_of_int_colon_free user_id2) H2)
    as [Hid ->].
  by apply settings_more.str_of_int_inj in Hid as ->.
Qed.

(** X14. The key of [get_priority_data] joins its two arguments with a
    colon, so it tells requests apart as long as the data types have no
    colon in them: two calls that read the same key then have the same
    data type and the same priority. *)
Theorem priority_keys_separate_requests
    (data_type1 data_type2 priority1 priority2 : string)
    (s1 s2 : S) (k : string) (r1 r2 : outcome pyval) :
  colon_free data_type1 →
  colon_free data_type2 →
  EvGet k r1 ∈ trace (run (get_priority_data data_type1 priority1) s1).2 →
  EvGet k r2 ∈ trace (run (get_priority_data data_type2 priority2) s2).2 →
  data_type1 = data_type2 ∧ priority1 = priority2.
Proof.
  intros Hf1 Hf2 H1%get_priority_data_reads H2%get_priority_data_reads.
  rewrite H1 in H2. apply (inj (String.app "priority_data:")) in H2.
  by apply settings_more.append_colon_inj.
Qed.

(** With a colon in the data type two different requests do share a key. *)
Example priority_keys_collide :
  "priority_data:" +:+ "stats:daily" +:+ ":" +:+ "high"
  = "priority_data:" +:+ "stats" +:+ ":" +:+ "daily:high".
Proof. reflexivity. Qed.

End keys.

(** *** Grouping, continued *)

Section grouping_more.

Implicit Types (d : pydict) (h : hkey) (u : pyval) (seen users : list pyval).

Lemma group_step_bad d u :
  status_key u = None →
  ∃ e, group_step d u = Raise e ∧ exn_is_Exception e = true.
Proof.
  unfold status_key, group_step. intros Hu.
  destruct (py_get u (PStr "status") (PStr "unknown")) as [status|e] eqn:Hp.
  - rewrite Hu. by eexists.
  - exists e. split; [done|].
    destruct u; simpl in Hp; by simplify_eq.
Qed.

Lemma group_loop_bad users : ∀ seen d,
  grouped_so_far seen d →
  Exists (λ u, status_key u = None) users →
  ∃ e, group_loop d users = Raise e ∧ exn_is_Exception e = true.
Proof.
  induction users as [|u users IH]; intros seen d Hinv Hex.
  - by apply Exists_nil in Hex.
  - simpl. destruct (status_key u) as [h|] eqn:Hu.
    + destruct (group_step_inv seen d u h Hu Hinv) as (d1 & -> & Hinv1).
      apply Exists_cons in Hex as [Hbad|Hex]; [congruence|].
      by apply (IH (seen ++ [u]) d1).
    + destruct (group_step_bad d u Hu) as (e & -> & He). by exists e.
Qed.

Lemma first_seen_snoc {A} `{EqDecision A} (l : list A) (x : A) :
  first_seen (l ++ [x])
  = first_seen l ++ (if decide (x ∈ l) then [] else [x]).
Proof.
  unfold first_seen. rewrite reverse_app. simpl.
  destruct (decide_rel elem_of x (reverse l)) as [Hin|Hnin];
    rewrite elem_of_reverse in *.
  - rewrite decide_True by done. by rewrite app_nil_r.
  - rewrite decide_False by done. by rewrite reverse_cons.
Qed.

Lemma elem_of_first_seen {A} `{EqDecision A} (l : list A) (x : A) :
  x ∈ first_seen l ↔ x ∈ l.
Proof.
  unfold first_seen.
  by rewrite elem_of_reverse, elem_of_remove_dups, elem_of_reverse.
Qed.

Lemma group_loop_keys users : ∀ seen d,
  Forall (λ u, is_Some (status_key u)) users →
  grouped_so_far seen d →
  hash_key <$> d.*1 = first_seen (status_key <$> seen) →
  ∃ d', group_loop d users = Ok d'
        ∧ hash_key <$> d'.*1 = first_seen (status_key <$> (seen ++ users)).
Proof.
  induction users as [|u users IH]; intros seen d Hall Hinv Hkeys; simpl.
  - exists d. by rewrite app_nil_r.
  - apply Forall_cons in Hall as [[h Hu] Hall].
    destruct (group_step_spec seen d u h Hu Hinv) as (status & Hst & Hstep).
    destruct (group_step_inv seen d u h Hu Hinv) as (d1 & Hstep' & Hinv1).
    rewrite Hstep' . rewrite Hstep in Hstep'. injection Hstep' as <-.
    destruct (IH (seen ++ [u]) _ Hall Hinv1) as (d' & Hloop & Hk).
    + rewrite dict_store_keys by done. rewrite fmap_app. simpl.
      rewrite first_seen_snoc, Hu, <- Hkeys.
      destruct (dict_lookup h d) eqn:Hl.
      * rewrite decide_True; [by rewrite app_nil_r|].
        rewrite <- elem_of_first_seen, <- Hkeys.
        destruct (decide (Some h ∈ hash_key <$> d.*1)) as [|Hn]; [done|].
        apply dict_lookup_None in Hn. congruence.
      * rewrite decide_False; [done|].
        rewrite <- elem_of_first_seen, <- Hkeys.
        by apply dict_lookup_None.
    + exists d'. split; [done|]. by rewrite <- app_assoc in Hk.
Qed.

Example first_seen_sample :
  first_seen ["new"; "unknown"; "new"; "paid"; "unknown"]
  = ["new"; "unknown"; "paid"].
Proof. reflexivity. Qed.

(** X22. The groups of [get_grouped_user_data] come in the order in which
    their statuses first appear among the users. *)
Theorem group_keys_in_order_of_first_appearance users :
  Forall (λ u, is_Some (status_key u)) users →
  ∃ grouped_data,
    group_users (PList users) = Ok grouped_data
    ∧ hash_key <$> grouped_data.*1 = first_seen (status_key <$> users).
Proof.
  intros Hall.
  by apply (group_loop_keys users [] [] Hall grouped_so_far_nil).
Qed.

End grouping_more.

Section grouping_errors.

Context {S Cache : Type} `{!Collaborators S Cache}.

(** X21. Grouping is all or nothing: one fetched user that is no
    dictionary, or whose status cannot be a dictionary key, makes
    [get_grouped_user_data] raise an error after the fetch, and nothing is
    cached, the well-formed users before it included. *)
Theorem malformed_user_fails_whole_group (group_id : string) (s : S)
    (c : Cache) (s1 : S) (cached : pyval) (s2 : S) (users : list pyval)
    (s3 : S) :
  get_cache s = (Ok c, s1) →
  cache_get c ("grouped_users:" +:+ group_id) s1 = (Ok cached, s2) →
  truthy cached = false →
  fetch_users_by_group group_id s2 = (Ok (PList users), s3) →
  Exists (λ u, status_key u = None) users →
  ∃ e,
    exn_is_Exception e = true
    ∧ run (get_grouped_user_data group_id) s
      = (Raise e,
         World s3
           [EvGetCache (Ok ());
            EvGet ("grouped_users:" +:+ group_id) (Ok cached);
            EvCall "fetch_users_by_group" [PStr group_id]
              (Ok (PList users))] []).
Proof.
  intros Hc Hg Ht Hf Hbad.
  destruct (group_loop_bad users [] [] grouped_so_far_nil Hbad)
    as (e & Hloop & He).
  exists e. split; [done|].
  unfold get_grouped_user_data. unfold_m. step_calls. rewrite Ht. simpl.
  step_calls. unfold group_users. simpl. by rewrite Hloop.
Qed.

End grouping_errors.

(** *** Compositions on the reference client *)

Section compositions.
Import store_model.

(** X8. On the reference client [safe_cache_get] memoizes: with a
    positive TTL and a fallback that returns a value other than [None], a
    second call on the same key returns what the first returned, awaits
    the fallback not at all and leaves the store as it was. *)
Theorem safe_cache_get_memoizes (key : string) (v : pyval) (ttl : Z)
    (s : state) :
  reachable_for s = None →
  0 < ttl →
  v ≠ PNone →
  let fallback_func : callable state := λ s, (Ok v, s) in
  let first := run (safe_cache_get key fallback_func ttl) s in
  let second := run (safe_cache_get key fallback_func ttl) (ext first.2) in
  second.1 = first.1
  ∧ count_calls "fallback_func" (trace second.2) = 0%nat
  ∧ ext second.2 = ext first.2.
Proof.
  intros Hup Httl Hv fb first second.
  pose proof (reference_get key s Hup) as Hget.
  destruct (is_None (default PNone (fst <$> entries s !! (prefix s +:+ key))))
    eqn:Hnone.
  - apply is_None_true in Hnone. rewrite Hnone in Hget.
    assert (Hfirst : first
      = (Ok v, World (with_entry_ttl key v ttl s)
                 [EvGetCache (Ok ()); EvGet key (Ok PNone);
                  EvCall "fallback_func" [] (Ok v);
                  EvSet key v ttl (Ok (PBool true))] [])).
    { subst first.
      by apply (safe_cache_get_miss key fb ttl s () s s v s (PBool true) _
                  (reference_get_cache s Hup) Hget eq_refl
                  (reference_set key v ttl s Hup Httl)). }
    subst second. rewrite Hfirst. simpl.
    rewrite (safe_cache_get_hit key fb ttl
               (with_entry_ttl key v ttl s) () _ v _
               (reference_get_cache (with_entry_ttl key v ttl s) Hup)
               (reference_get_after_set key v ttl s Hup) Hv).
    done.
  - apply is_None_false in Hnone.
    assert (Hfirst : run (safe_cache_get key fb ttl) s
      = (Ok (default PNone (fst <$> entries s !! (prefix s +:+ key))),
         World s [EvGetCache (Ok ());
                  EvGet key (Ok (default PNone
                                   (fst <$> entries s !! (prefix s +:+ key))))]
           [])).
    { by apply (safe_cache_get_hit key fb ttl s () s _ s
                  (reference_get_cache s Hup) Hget). }
    subst first second. rewrite Hfirst. simpl. by rewrite Hfirst.
Qed.


(** X9. A [None] result is stored but never served: with the key absent,
    a positive TTL and a fallback that returns [None], the first call
    writes [None] under the key, and the second call awaits the fallback
    again. *)
Theorem safe_cache_get_never_serves_None (key : string) (ttl : Z)
    (s : state) :
  reachable_for s = None →
  0 < ttl →
  entries s !! (prefix s +:+ key) = None →
  let fallback_func : callable state := λ s, (Ok PNone, s) in
  let first := run (safe_cache_get key fallback_func ttl) s in
  let second := run (safe_cache_get key fallback_func ttl) (ext first.2) in
  entries (ext first.2) !! (prefix s +:+ key) = Some (PNone, ttl)
  ∧ count_calls "fallback_func" (trace first.2) = 1%nat
  ∧ count_calls "fallback_func" (trace second.2) = 1%nat.
Proof.
  intros Hup Httl Habs fb first second.
  assert (Hfirst : first
    = (Ok PNone, World (with_entry_ttl key PNone ttl s)
               [EvGetCache (Ok ()); EvGet key (Ok PNone);
                EvCall "fallback_func" [] (Ok PNone);
                EvSet key PNone ttl (Ok (PBool true))] [])).
  { subst first.
    apply (safe_cache_get_miss key fb ttl s () s s PNone s (PBool true) _
             (reference_get_cache s Hup)); [|done|].
    - rewrite (reference_get key s Hup). by rewrite Habs.
    - apply (reference_set key PNone ttl s Hup Httl). }
  subst second. rewrite Hfirst. simpl.
  split; [by rewrite lookup_insert_eq|]. split; [done|].
  rewrite (safe_cache_get_miss key fb ttl _ () _ _ PNone _ (PBool true) _
             (reference_get_cache (with_entry_ttl key PNone ttl s) Hup)
             (reference_get_after_set key PNone ttl s Hup) eq_refl
             (reference_set key PNone ttl (with_entry_ttl key PNone ttl s)
                Hup Httl)).
  done.
Qed.

(** X11. After a successful [refresh_cache_background] with a positive
    TTL the entry under the key is the producer's value with the TTL of
    the refresh, and the next [safe_cache_get] on the key returns it
    without awaiting its fallback. *)
Theorem refreshed_entry_is_served
    (key : string) (new_data : pyval) (ttl ttl' : Z)
    (fallback_func : callable state) (s : state) :
  reachable_for s = None →
  0 < ttl →
  new_data ≠ PNone →
  let fetch_func : callable state := λ s, (Ok new_data, s) in
  let refreshed := run (refresh_cache_background key fetch_func ttl) s in
  let read := run (safe_cache_get key fallback_func ttl') (ext refreshed.2) in
  refreshed.1 = Ok ()
  ∧ entries (ext refreshed.2) !! (prefix s +:+ key) = Some (new_data, ttl)
  ∧ read.1 = Ok new_data
  ∧ count_calls "fallback_func" (trace read.2) = 0%nat
  ∧ ext read.2 = ext refreshed.2.
Proof.
  intros Hup Httl Hv fetch_func refreshed read.
  subst refreshed read.
  rewrite (refresh_cache_background_run key fetch_func ttl s () s new_data s
             (PBool true) (with_entry_ttl key new_data ttl s)
             (reference_get_cache s Hup) eq_refl
             (reference_set key new_data ttl s Hup Httl)).
  simpl ext.
  rewrite (safe_cache_get_hit key fallback_func ttl'
             (with_entry_ttl key new_data ttl s) () _ new_data _
             (reference_get_cache (with_entry_ttl key new_data ttl s) Hup)
             (reference_get_after_set key new_data ttl s Hup) Hv).
  simpl. repeat split; try done. by rewrite lookup_insert_eq.
Qed.


(** X20. Two calls of [increment_user_counter] in a row on the reference
    client count up by one each: the second reads the value the first left
    in the cache, does not ask the database, and afterwards cache and
    database hold the same value. *)
Theorem increment_user_counter_twice
    (user_id : Z) (counter_type : string) (s : state) (prior : pyval)
    (n : Z) :
  reachable_for s = None →
  counter_prior user_id counter_type s prior →
  as_int prior = Some n →
  let key :=
    "user_counter:" +:+ str_of_int user_id +:+ ":" +:+ counter_type in
  let first := run (increment_user_counter user_id counter_type) s in
  let second :=
    run (increment_user_counter user_id counter_type) (ext first.2) in
  first.1 = Ok (PInt (n + 1))
  ∧ second.1 = Ok (PInt (n + 2))
  ∧ count_calls "get_counter_from_db" (trace second.2) = 0%nat
  ∧ entries (ext second.2) !! (prefix s +:+ key) = Some (PInt (n + 2), 7200)
  ∧ db_counters (ext second.2) !! (user_id, counter_type)
    = Some (PInt (n + 2)).
Proof.
  intros Hup (c & s1 & cached & s2 & Hc & Hg & Hprior) Hn key first second.
  rewrite (reference_get_cache s Hup) in Hc. injection Hc as <- <-.
  pose proof Hg as Hg'.
  rewrite (reference_get _ s Hup) in Hg'. injection Hg' as _ <-.
  set (s' := with_counter user_id counter_type (PInt (n + 1))
               (with_entry_ttl key (PInt (n + 1)) 7200 s)).
  assert (Hfirst : run (increment_user_counter user_id counter_type) s
    = (Ok (PInt (n + 1)),
       World s'
         ([EvGetCache (Ok ()); EvGet key (Ok cached)]
          ++ (if is_None cached
              then [EvCall "get_counter_from_db"
                      [PInt user_id; PStr counter_type] (Ok prior)]
              else [])
          ++ [EvSet key (PInt (n + 1)) 7200 (Ok (PBool true));
              EvCall "update_counter_in_db"
                [PInt user_id; PStr counter_type; PInt (n + 1)] (Ok PNone)])
         [])).
  { apply (increment_user_counter_run user_id counter_type s () s cached s
             prior s n (PBool true) (with_entry_ttl key (PInt (n + 1)) 7200 s)
             PNone s' (reference_get_cache s Hup) Hg); try done.
    - destruct (is_None cached); [|done].
      destruct Hprior as [s3 Hdb]. pose proof Hdb as Hdb'.
      simpl in Hdb'. injection Hdb' as _ <-. exact Hdb.
    - apply (reference_set key (PInt (n + 1)) 7200 s Hup eq_refl). }
  subst first second. rewrite Hfirst. simpl ext.
  set (s'' := with_counter user_id counter_type (PInt (n + 1 + 1))
                (with_entry_ttl key (PInt (n + 1 + 1)) 7200 s')).
  assert (Hsecond : run (increment_user_counter user_id counter_type) s'
    = (Ok (PInt (n + 1 + 1)),
       World s''
         ([EvGetCache (Ok ()); EvGet key (Ok (PInt (n + 1)))]
          ++ []
          ++ [EvSet key (PInt (n + 1 + 1)) 7200 (Ok (PBool true));
              EvCall "update_counter_in_db"
                [PInt user_id; PStr counter_type; PInt (n + 1 + 1)]
                (Ok PNone)])
         [])).
  { apply (increment_user_counter_run user_id counter_type s' () s'
             (PInt (n + 1)) s' (PInt (n + 1)) s' (n + 1) (PBool true)
             (with_entry_ttl key (PInt (n + 1 + 1)) 7200 s') PNone s''
             (reference_get_cache s' Hup)); try done.
    - rewrite (reference_get _ s' Hup). subst s'. simpl.
      by rewrite lookup_insert_eq.
    - apply (reference_set key (PInt (n + 1 + 1)) 7200 s' Hup eq_refl). }
  rewrite Hsecond. simpl.
  replace (n + 1 + 1) with (n + 2) by lia.
  repeat split; try done; by rewrite lookup_insert_eq.
Qed.



(** X25. [cache_user_session_data] and
    [get_user_data_with_conditional_cache] share the key
    [user_data:<id>]: once a session with a truthy [user_info] is cached,
    the read path returns that [user_info] for the user and does not ask
    the database. *)
Theorem session_user_info_shadows_database
    (user_id : Z) (session_data : pydict) (user_info : pyval) (s : state) :
  reachable_for s = None →
  dict_lookup (HStr "user_info") session_data = Some user_info →
  truthy user_info = true →
  let msg := Build_message (Build_user user_id) in
  let session :=
    run (cache_user_session_data user_id (PDict session_data)) s in
  let read :=
    run (get_user_data_with_conditional_cache msg) (ext session.2) in
  session.1 = Ok (PBool true)
  ∧ read.1 = Ok user_info
  ∧ count_calls "fetch_user_data_from_db" (trace read.2) = 0%nat.
Proof.
  intros Hup Hinfo Ht msg session read. subst session read.
  set (s1 := with_entry_ttl ("user_session:" +:+ str_of_int user_id)
               (PDict session_data) 300 s).
  set (s2 := with_entry_ttl ("user_data:" +:+ str_of_int user_id)
               user_info 3600 s1).
  rewrite (cache_user_session_data_run user_id session_data s () s
             (PBool true) s1 (PBool true) s2
             (reference_get_cache s Hup)
             (reference_set _ _ 300 s Hup eq_refl)).
  2: { rewrite Hinfo. apply (reference_set _ user_info 3600 s1 Hup eq_refl). }
  simpl ext.
  rewrite (get_user_data_with_conditional_cache_hit msg s2 () s2 user_info s2
             (reference_get_cache s2 Hup)
             (reference_get_after_set _ user_info 3600 s1 Hup) Ht).
  done.
Qed.

End compositions.

(** *** The handler *)

Section handler_facts.

Context {S : Type}.
Variable get_user_profile : message → callable S.
Variable get_bot_statistics : callable S.
Variable get_user_subscription_status : Z → callable S.
Variable py_str : pyval → string.

(** X27. [example_handler] lets no error of the three getters out.  When
    the first one raises an error the others are not called, the error is
    printed and the fixed apology is returned; a value the handler returns
    is the apology or the text built from the three results, each getter
    having been called once, in source order. *)
Theorem example_handler_contains_errors (msg : message) (s : S) :
  let result :=
    run (example_handler get_user_profile get_bot_statistics
           get_user_subscription_status py_str msg) s in
  lets_no_error_out result.1
  ∧ (∀ e s1, get_user_profile msg s = (Raise e, s1) →
       exn_is_Exception e = true →
       result
       = (Ok (PStr handler_failure),
          World s1 [EvCall "get_user_profile" [message_repr msg] (Raise e);
                    EvPrint ("Ошибка в хендлере: " +:+ exn_text e)] []))
  ∧ (∀ v, result.1 = Ok v →
       v = PStr handler_failure
       ∨ ∃ profile stats subscription,
           v = PStr (handler_response py_str profile stats subscription)
           ∧ trace result.2
             = [EvCall "get_user_profile" [message_repr msg] (Ok profile);
                EvCall "get_bot_statistics" [] (Ok stats);
                EvCall "get_user_subscription_status"
                  [PInt (id (from_user msg))] (Ok subscription)]).
Proof.
  unfold example_handler, lets_no_error_out. unfold_m.
  split; [|split].
  - run_cases; done.
  - intros e s1 Hp He. step_calls. by rewrite He.
  - run_cases; intros v [= <-]; eauto 10.
Qed.

End handler_facts.

(* ===================================================================== *)
(** ** The further properties at concrete inputs *)
(* ===================================================================== *)

Section concrete_inputs.
Import store_model.

Lemma safe_cache_get_serves_any_entry_witness :
  let fallback_func : callable state := λ s, (Ok (PInt 7), s) in
  let s := with_entry "k" (PDict []) empty_state in
  let result := run (safe_cache_get "k" fallback_func 60) s in
  result.1 = Ok (PDict [])
  ∧ trace result.2 = [EvGetCache (Ok ()); EvGet "k" (Ok (PDict []))]
  ∧ ext result.2 = s
  ∧ count_calls "fallback_func" (trace result.2) = 0%nat.
Proof.
  intros fallback_func s.
  apply (safe_cache_get_serves_any_entry "k" fallback_func 60 s () s
           (PDict []) s); [reflexivity|reflexivity|discriminate].
Defined.

Lemma safe_cache_get_retries_failed_fallback_witness :
  let e := Exn "TimeoutError" "database timed out" true in
  let fallback_func : callable state := λ s, (Raise e, s) in
  run (safe_cache_get "k" fallback_func 60) empty_state
  = (Raise e,
     World empty_state
       [EvGetCache (Ok ()); EvGet "k" (Ok PNone);
        EvCall "fallback_func" [] (Raise e);
        EvPrint ("Ошибка кеширования: " +:+ exn_text e);
        EvCall "fallback_func" [] (Raise e)] []).
Proof.
  intros e fallback_func.
  apply (safe_cache_get_retries_failed_fallback "k" fallback_func 60
           empty_state () empty_state empty_state e empty_state);
    reflexivity.
Defined.

Lemma safe_cache_get_provenance_witness :
  let e := Exn "TimeoutError" "database timed out" true in
  let fallback_func : callable state := λ s, (Raise e, s) in
  last (trace (run (safe_cache_get "k" fallback_func 60) empty_state).2)
  = Some (EvCall "fallback_func" [] (Raise e)).
Proof.
  intros e fallback_func.
  exact (safe_cache_get_provenance "k" fallback_func 60 empty_state eq_refl).
Defined.

Lemma safe_cache_get_memoizes_witness :
  let fallback_func : callable state := λ s, (Ok (PDict []), s) in
  let first := run (safe_cache_get "k" fallback_func 60) empty_state in
  let second := run (safe_cache_get "k" fallback_func 60) (ext first.2) in
  second.1 = first.1
  ∧ count_calls "fallback_func" (trace second.2) = 0%nat
  ∧ ext second.2 = ext first.2.
Proof.
  apply (safe_cache_get_memoizes "k" (PDict []) 60 empty_state);
    [reflexivity|reflexivity|discriminate].
Defined.

Lemma safe_cache_get_never_serves_None_witness :
  let fallback_func : callable state := λ s, (Ok PNone, s) in
  let first := run (safe_cache_get "k" fallback_func 60) empty_state in
  let second := run (safe_cache_get "k" fallback_func 60) (ext first.2) in
  entries (ext first.2) !! ("bot_cache:" +:+ "k") = Some (PNone, 60)
  ∧ count_calls "fallback_func" (trace first.2) = 1%nat
  ∧ count_calls "fallback_func" (trace second.2) = 1%nat.
Proof.
  apply (safe_cache_get_never_serves_None "k" 60 empty_state); reflexivity.
Defined.

Lemma refresh_cache_background_steps_witness :
  let fetch_func : callable state := λ s, (Ok (PInt 8), s) in
  run (refresh_cache_background "k" fetch_func 60)
    (with_entry "k" (PInt 7) empty_state)
  = (Ok (),
     World (with_entry_ttl "k" (PInt 8) 60
              (with_entry "k" (PInt 7) empty_state))
       [EvGetCache (Ok ()); EvCall "fetch_func" [] (Ok (PInt 8));
        EvSet "k" (PInt 8) 60 (Ok (PBool true));
        EvPrint ("Кеш " +:+ "k" +:+ " обновлен в фоне")] []).
Proof.
  intros fetch_func.
  apply (proj1 (proj2 (refresh_cache_background_steps "k" fetch_func 60
                         (with_entry "k" (PInt 7) empty_state)))
           () (with_entry "k" (PInt 7) empty_state) (PInt 8)
           (with_entry "k" (PInt 7) empty_state) (PBool true));
    reflexivity.
Defined.

Lemma refreshed_entry_is_served_witness :
  let fetch_func : callable state := λ s, (Ok (PInt 8), s) in
  let fallback_func : callable state := λ s, (Ok (PInt 0), s) in
  let s := with_entry "k" (PInt 7) empty_state in
  let refreshed := run (refresh_cache_background "k" fetch_func 60) s in
  let read := run (safe_cache_get "k" fallback_func 1800) (ext refreshed.2) in
  refreshed.1 = Ok ()
  ∧ entries (ext refreshed.2) !! ("bot_cache:" +:+ "k") = Some (PInt 8, 60)
  ∧ read.1 = Ok (PInt 8)
  ∧ count_calls "fallback_func" (trace read.2) = 0%nat
  ∧ ext read.2 = ext refreshed.2.
Proof.
  intros fetch_func fallback_func s.
  apply (refreshed_entry_is_served "k" (PInt 8) 60 1800 fallback_func s);
    [reflexivity|reflexivity|discriminate].
Defined.

Lemma get_auto_refresh_data_only_returns_fetched_witness :
  let fetch_func : callable state := λ s, (Ok (PInt 7), s) in
  ∃ cached r,
    truthy cached = false
    ∧ trace (run (get_auto_refresh_data "k" fetch_func 60)
               (with_entry "k" (PDict []) empty_state)).2
      = [EvGetCache (Ok ()); EvGet "k" (Ok cached);
         EvCall "fetch_func" [] (Ok (PInt 7)); EvSet "k" (PInt 7) 60 (Ok r)].
Proof.
  intros fetch_func.
  apply (proj2 (proj2 (get_auto_refresh_data_only_returns_fetched "k"
                         fetch_func 60
                         (with_entry "k" (PDict []) empty_state)))
           (PInt 7)).
  reflexivity.
Defined.

Lemma get_priority_data_writes_witness : ttl_map_get "HIGH" = 1800.
Proof.
  apply (proj2 (proj2 (get_priority_data_writes "stats" "HIGH" empty_state)));
    discriminate.
Defined.

Lemma priority_keys_separate_requests_witness :
  "stats" = "stats" ∧ "high" = "high".
Proof.
  apply (priority_keys_separate_requests "stats" "stats" "high" "high"
           empty_state (with_entry "other" (PInt 1) empty_state)
           "priority_data:stats:high" (Ok PNone) (Ok PNone)).
  - vm_compute. intros H. inversion H as [|? ? ? H1]; subst.
    repeat (inversion H1 as [|? ? ? H2]; subst; clear H1; rename H2 into H1).
  - vm_compute. intros H. inversion H as [|? ? ? H1]; subst.
    repeat (inversion H1 as [|? ? ? H2]; subst; clear H1; rename H2 into H1).
  - vm_compute. right. left.
  - vm_compute. right. left.
Defined.

Lemma counter_keys_separate_users_witness : 5 = 5 ∧ "msgs" = "msgs".
Proof.
  apply (counter_keys_separate_users 5 5 "msgs" "msgs" empty_state
           (with_entry "user_counter:5:msgs" (PInt 3) empty_state)
           "user_counter:5:msgs" (Ok PNone) (Ok (PInt 3))).
  - vm_compute. right. left.
  - vm_compute. right. left.
Defined.

Lemma only_active_users_are_cached_witness :
  let row := PDict [(PStr "name", PStr "ann"); (PStr "is_active", PBool true)]
  in
  "user_data:7" = "user_data:" +:+ str_of_int 7 ∧ 1800 = 1800
  ∧ trace (run (get_user_data_with_conditional_cache
                  (Build_message (Build_user 7)))
             (with_user 7 row empty_state)).2 !! 2%nat
    = Some (EvCall "fetch_user_data_from_db" [PInt 7] (Ok row))
  ∧ ∃ active, py_get row (PStr "is_active") PNone = Ok active
              ∧ truthy active = true.
Proof.
  intros row.
  apply (only_active_users_are_cached (Build_message (Build_user 7))
           (with_user 7 row empty_state) 3%nat "user_data:7" row 1800
           (Ok (PBool true))).
  reflexivity.
Defined.

Lemma unknown_user_raises_witness :
  run (get_user_data_with_conditional_cache (Build_message (Build_user 7)))
    empty_state
  = (Raise (AttributeError "NoneType" "get"),
     World empty_state
       [EvGetCache (Ok ()); EvGet ("user_data:" +:+ str_of_int 7) (Ok PNone);
        EvCall "fetch_user_data_from_db" [PInt 7] (Ok PNone)] []).
Proof.
  apply (unknown_user_raises (Build_message (Build_user 7)) empty_state ()
           empty_state PNone empty_state PNone empty_state);
    try reflexivity.
  intros d. discriminate.
Defined.


Lemma increment_user_counter_needs_a_number_witness :
  let s := with_entry "user_counter:5:msgs" (PStr "41") empty_state in
  let result := run (increment_user_counter 5 "msgs") s in
  (∃ text, result.1 = Raise (TypeError text))
  ∧ writes (trace result.2) = [].
Proof.
  intros s.
  apply (increment_user_counter_needs_a_number 5 "msgs" s (PStr "41")).
  - exists (), s, (PStr "41"), s. repeat split; reflexivity.
  - reflexivity.
Defined.

Lemma increment_user_counter_twice_witness :
  let s := with_counter 5 "msgs" (PInt (-1)) empty_state in
  let first := run (increment_user_counter 5 "msgs") s in
  let second := run (increment_user_counter 5 "msgs") (ext first.2) in
  first.1 = Ok (PInt (-1 + 1))
  ∧ second.1 = Ok (PInt (-1 + 2))
  ∧ count_calls "get_counter_from_db" (trace second.2) = 0%nat
  ∧ entries (ext second.2)
    !! ("bot_cache:" +:+ ("user_counter:" +:+ str_of_int 5 +:+ ":" +:+ "msgs"))
    = Some (PInt (-1 + 2), 7200)
  ∧ db_counters (ext second.2) !! (5, "msgs") = Some (PInt (-1 + 2)).
Proof.
  intros s.
  apply (increment_user_counter_twice 5 "msgs" s (PInt (-1)) (-1)).
  - reflexivity.
  - exists (), s, PNone, s. repeat split; try reflexivity.
    exists s. reflexivity.
  - reflexivity.
Defined.

Lemma malformed_user_fails_whole_group_witness :
  let users := [PDict [(PStr "status", PStr "active")]; PStr "oops"] in
  let s := with_group "g1" (PList users) empty_state in
  ∃ e,
    exn_is_Exception e = true
    ∧ run (get_grouped_user_data "g1") s
      = (Raise e,
         World s
           [EvGetCache (Ok ()); EvGet ("grouped_users:" +:+ "g1") (Ok PNone);
            EvCall "fetch_users_by_group" [PStr "g1"] (Ok (PList users))] []).
Proof.
  intros users s.
  apply (malformed_user_fails_whole_group "g1" s () s PNone s users s);
    try reflexivity.
  right. left. reflexivity.
Defined.

Lemma group_keys_in_order_of_first_appearance_witness :
  let users :=
    [PDict [(PStr "status", PStr "new")]; PDict [];
     PDict [(PStr "status", PStr "new")]; PDict [(PStr "status", PInt 1)]] in
  ∃ grouped_data,
    group_users (PList users) = Ok grouped_data
    ∧ hash_key <$> grouped_data.*1 = first_seen (status_key <$> users).
Proof.
  intros users.
  apply (group_keys_in_order_of_first_appearance users).
  repeat apply Forall_cons_2; [by eexists..|apply Forall_nil_2].
Defined.


Lemma cache_user_session_data_partial_write_witness :
  run (cache_user_session_data 7 PNone) empty_state
  = (Raise (AttributeError "NoneType" "get"),
     World (with_entry_ttl ("user_session:" +:+ str_of_int 7) PNone 300
              empty_state)
       [EvGetCache (Ok ());
        EvSet ("user_session:" +:+ str_of_int 7) PNone 300 (Ok (PBool true))]
       []).
Proof.
  apply (cache_user_session_data_partial_write 7 PNone empty_state ()
           empty_state (PBool true)); try reflexivity.
  intros d. discriminate.
Defined.

Lemma session_user_info_shadows_database_witness :
  let info := PDict [(PStr "name", PStr "from the session")] in
  let row := PDict [(PStr "name", PStr "from the database");
                    (PStr "is_active", PBool true)] in
  let s := with_user 7 row empty_state in
  let session :=
    run (cache_user_session_data 7 (PDict [(PStr "user_info", info)])) s in
  let read :=
    run (get_user_data_with_conditional_cache (Build_message (Build_user 7)))
      (ext session.2) in
  session.1 = Ok (PBool true)
  ∧ read.1 = Ok info
  ∧ count_calls "fetch_user_data_from_db" (trace read.2) = 0%nat.
Proof.
  intros info row s.
  apply (session_user_info_shadows_database 7 [(PStr "user_info", info)]
           info s); reflexivity.
Defined.

Lemma cache_with_metadata_envelope_witness :
  PBool true = PBool true
  ∧ ∃ (envelope : pydict) r,
      trace (run (cache_with_metadata "k" (PInt 1) PNone) empty_state).2
      = [EvGetCache (Ok ()); EvSet "k" (PDict envelope) 3600 (Ok r)]
      ∧ envelope.*1
        = [PStr "data"; PStr "metadata"; PStr "cached_at"; PStr "version"]
      ∧ py_get (PDict envelope) (PStr "data") PNone = Ok (PInt 1)
      ∧ py_get (PDict envelope) (PStr "metadata") PNone
        = Ok (py_or PNone (PDict []))
      ∧ py_get (PDict envelope) (PStr "cached_at") PNone
        = Ok (PStr "2024-01-01T00:00:00Z").
Proof.
  apply (cache_with_metadata_envelope "k" (PInt 1) PNone empty_state
           (PBool true)).
  reflexivity.
Defined.

Lemma example_handler_contains_errors_witness :
  let e := Exn "TimeoutError" "database timed out" true in
  let msg := Build_message (Build_user 7) in
  let failing : message → callable state := λ _ s, (Raise e, s) in
  let stats : callable state := λ s, (Ok (PDict []), s) in
  let subscription : Z → callable state := λ _ s, (Ok (PDict []), s) in
  run (example_handler failing stats subscription (λ _, "") msg) empty_state
  = (Ok (PStr handler_failure),
     World empty_state
       [EvCall "get_user_profile" [message_repr msg] (Raise e);
        EvPrint ("Ошибка в хендлере: " +:+ exn_text e)] []).
Proof.
  intros e msg failing stats subscription.
  apply (proj1 (proj2 (example_handler_contains_errors failing stats
                         subscription (λ _, "") msg empty_state))
           e empty_state); reflexivity.
Defined.

Lemma truthy_hit_is_served_witness :
  let s := with_entry "priority_data:stats:high" (PInt 42) empty_state in
  run (get_priority_data "stats" "high") s
  = (Ok (PInt 42),
     World s
       [EvGetCache (Ok ());
        EvGet ("priority_data:" +:+ "stats" +:+ ":" +:+ "high")
          (Ok (PInt 42))] []).
Proof.
  intros s.
  destruct (truthy_hit_is_served s () s (PInt 42) s) as (_ & Hpriority & _);
    [reflexivity..|].
  apply (Hpriority "stats" "high"). reflexivity.
Defined.

End concrete_inputs.
